(** * UniFi Network API integration: transport client, pagination and
      polling coordinator

    A shallow embedding of [custom_components/unifi_network_api/api.py]
    ([UnifiNetworkApiClient]) and [coordinator.py]
    ([UnifiNetworkApiCoordinator]).

    Modelling conventions.
    - Python values decoded from JSON are [json]; JSON numbers are modelled
      as integers ([Z]) and JSON strings as ASCII text ([string]).
    - Exceptions are the constructors of [exn]; the classes of [api.py] keep
      their names, every exception outside the [UnifiApiError] hierarchy
      (KeyError, TypeError, AttributeError, JSONDecodeError) is [OtherError].
    - Code that may raise returns [result A].
    - The HTTP session is a function [net : http_request -> exchange]: the
      outcome of sending one request.  Requests are independent, so the
      concurrency of [asyncio.gather] only matters for *which* exception is
      reported when several tasks fail; the model returns every possibility.
    - The [while True] loop of [_paginate] is run with fuel; [None] means the
      loop is still running when the fuel is spent. *)

From Stdlib Require Import ZArith List String Ascii Bool Lia.
From stdpp Require Import base list strings.

Import ListNotations.
Open Scope list_scope.
Local Set Warnings "-register-all".

(* ------------------------------------------------------------------ *)
(** ** Python values *)

Inductive json : Type :=
| JNull
| JBool (b : bool)
| JNum (z : Z)
| JStr (s : string)
| JArr (l : list json)
| JObj (kvs : list (string * json)).

(** Lookup of a key in a decoded JSON object (a parsed object has no
    duplicate keys). *)
Fixpoint assoc (k : string) (kvs : list (string * json)) : option json :=
  match kvs with
  | [] => None
  | (k', v) :: rest => if String.eqb k k' then Some v else assoc k rest
  end.

(** [aiohttp.ClientError]; [str(err)] is its description. *)
Inductive client_error : Type :=
| ClientError (descr : string).

Definition client_error_str (c : client_error) : string :=
  match c with ClientError d => d end.

Inductive exn : Type :=
| UnifiApiError (msg : string)
| UnifiAuthenticationError (msg : string)
| UnifiConnectionError (msg : string) (cause : client_error)
| OtherError (name : string).

(** [isinstance(err, UnifiApiError)]: both other [Unifi*] classes are its
    subclasses. *)
Definition is_unifi_api_error (e : exn) : bool :=
  match e with OtherError _ => false | _ => true end.

(** [str(err)] *)
Definition exn_str (e : exn) : string :=
  match e with
  | UnifiApiError m | UnifiAuthenticationError m
  | UnifiConnectionError m _ | OtherError m => m
  end.

Inductive result (A : Type) : Type :=
| Ok (a : A)
| Err (e : exn).
Arguments Ok {A} a.
Arguments Err {A} e.

Global Instance result_ret : MRet result := fun A a => Ok a.
Global Instance result_bind : MBind result :=
  fun A B f m => match m with Ok a => f a | Err e => Err e end.

(** [d.get(k, default)]: only a dict has [get]. *)
Definition py_get (d : json) (k : string) (default : json) : result json :=
  match d with
  | JObj kvs => Ok (match assoc k kvs with Some v => v | None => default end)
  | _ => Err (OtherError "AttributeError")
  end.

(** [d[k]] *)
Definition py_getitem (d : json) (k : string) : result json :=
  match d with
  | JObj kvs => match assoc k kvs with
                | Some v => Ok v
                | None => Err (OtherError "KeyError")
                end
  | _ => Err (OtherError "TypeError")
  end.

(** Iterating a value, as [list.extend] does: a list yields its items, a dict
    its keys, a string its characters. *)
Definition py_iter (v : json) : result (list json) :=
  match v with
  | JArr l => Ok l
  | JObj kvs => Ok (map (fun kv => JStr (fst kv)) kvs)
  | JStr s => Ok (map (fun c => JStr (String c EmptyString)) (list_ascii_of_string s))
  | _ => Err (OtherError "TypeError")
  end.

(** [bool(v)] *)
Definition py_truthy (v : json) : bool :=
  match v with
  | JNull => false
  | JBool b => b
  | JNum z => negb (Z.eqb z 0)
  | JStr s => negb (String.eqb s EmptyString)
  | JArr l => negb (Nat.eqb (length l) 0)
  | JObj kvs => negb (Nat.eqb (length kvs) 0)
  end.

(** [n >= v] for a Python int [n]. *)
Definition py_int_ge (n : Z) (v : json) : result bool :=
  match v with
  | JNum z => Ok (Z.geb n z)
  | JBool b => Ok (Z.geb n (if b then 1 else 0))
  | _ => Err (OtherError "TypeError")
  end.

(** Decimal rendering of integers, as [str] and f-strings print them. *)
Definition digit_char (d : Z) : ascii := ascii_of_nat (48 + Z.to_nat d).

Fixpoint pos_digits (fuel : nat) (n : Z) (acc : string) : string :=
  match fuel with
  | O => acc
  | S f => let acc' := String (digit_char (Z.modulo n 10)) acc in
           if Z.ltb n 10 then acc' else pos_digits f (Z.div n 10) acc'
  end.

Definition z_str (z : Z) : string :=
  if Z.ltb z 0
  then String "-" (pos_digits (S (Z.to_nat (- z))) (- z) EmptyString)
  else pos_digits (S (Z.to_nat z)) z EmptyString.

(* ------------------------------------------------------------------ *)
(** ** The transport client ([UnifiNetworkApiClient]) *)

Definition BASE_PATH : string := "/proxy/network/integration".

(** [s.rstrip("/")] *)
Fixpoint rstrip_slash (s : string) : string :=
  match s with
  | EmptyString => EmptyString
  | String c rest =>
      match rstrip_slash rest with
      | EmptyString => if Ascii.eqb c "/"%char then EmptyString
                       else String c EmptyString
      | r => String c r
      end
  end.

Record client : Type := {
  _host : string;
  _api_key : string;
  _verify_ssl : bool;
  _base_url : string
}.

(** [UnifiNetworkApiClient.__init__] (the aiohttp session is the [net]
    argument of the request functions). *)
Definition mk_client (host api_key : string) (verify_ssl : bool) : client :=
  let h := rstrip_slash host in
  {| _host := h; _api_key := api_key; _verify_ssl := verify_ssl;
     _base_url := String.append "https://" (String.append h BASE_PATH) |}.

(** What [session.request(method, url, headers=..., params=..., ssl=...)]
    is given; [rq_ssl = None] is aiohttp's default verification,
    [Some false] disables it. *)
Record http_request : Type := {
  rq_method : string;
  rq_url : string;
  rq_headers : list (string * string);
  rq_params : option (list (string * Z));
  rq_ssl : option bool
}.

(** The body as [await resp.json()] delivers it: a decoded value, an aiohttp
    [ContentTypeError] (a [ClientError]), or a decoding error. *)
Inductive json_body : Type :=
| BodyJson (j : json)
| BodyContentTypeError (c : client_error)
| BodyDecodeError.

(** The outcome of one request on the session: a low-level failure (aiohttp
    reports DNS, TCP and TLS failures as [ClientError]s), or a response with
    its status, its text and its JSON body. *)
Inductive exchange : Type :=
| ExClientError (c : client_error)
| ExResponse (status : Z) (text : string) (body : json_body).

Definition build_request (c : client) (method path : string)
    (params : option (list (string * Z))) : http_request :=
  {| rq_method := method;
     rq_url := String.append (_base_url c) path;
     rq_headers := [("X-API-Key"%string, _api_key c)];
     rq_params := params;
     rq_ssl := if _verify_ssl c then None else Some false |}.

Definition connection_error (c : client) (err : client_error) : exn :=
  UnifiConnectionError
    (String.append "Cannot connect to UniFi controller at "
       (String.append (_host c) (String.append ": " (client_error_str err))))
    err.

(** The body of the [try] of [_request] on the exchange [ex], followed by
    its [except aiohttp.ClientError]. *)
Definition handle_exchange (c : client) (ex : exchange) : result json :=
  match ex with
  | ExClientError err => Err (connection_error c err)
  | ExResponse status text body =>
      if orb (Z.eqb status 401) (Z.eqb status 403) then
        Err (UnifiAuthenticationError
               (String.append "Authentication failed: " (z_str status)))
      else if negb (Z.eqb status 200) then
        Err (UnifiApiError
               (String.append "API request failed ("
                  (String.append (z_str status) (String.append "): " text))))
      else match body with
           | BodyJson j => Ok j
           | BodyContentTypeError err => Err (connection_error c err)
           | BodyDecodeError => Err (OtherError "JSONDecodeError")
           end
  end.

(** [UnifiNetworkApiClient._request] *)
Definition _request (net : http_request -> exchange) (c : client)
    (method path : string) (params : option (list (string * Z))) : result json :=
  handle_exchange c (net (build_request c method path params)).

(** [UnifiNetworkApiClient.get_wans] *)
Definition get_wans (net : http_request -> exchange) (c : client)
    (site_id : string) : result json :=
  resp ← _request net c "GET"
           (String.append "/v1/sites/" (String.append site_id "/wans")) None;
  match resp with
  | JArr _ => Ok resp
  | _ => py_get resp "data" (JArr [])
  end.

(** The query parameters [{"offset": offset, "limit": limit}], [limit = 200]. *)
Definition limit : Z := 200.

Definition page_params (offset : Z) : option (list (string * Z)) :=
  Some [("offset"%string, offset); ("limit"%string, limit)].

(** The body of one iteration of the [while True] loop of [_paginate] after
    the request: extend [results] with [resp.get(data_key, [])], read
    [totalCount] and evaluate the [break] condition.  Returns whether the
    loop breaks, with the new [results]. *)
Definition page_step (data_key : string) (results : list json) (resp : json)
    : result (bool * list json) :=
  page_data ← py_get resp data_key (JArr []);
  items ← py_iter page_data;
  let results' := results ++ items in
  let n := Z.of_nat (length results') in
  total ← py_get resp "totalCount" (JNum n);
  reached ← py_int_ge n total;
  Ok (orb reached (negb (py_truthy page_data)), results').

(** The [while True] loop of [_paginate] from [offset], with the requests it
    issues, in order. *)
Fixpoint paginate_loop (fuel : nat) (net : http_request -> exchange)
    (c : client) (path data_key : string) (offset : Z) (results : list json)
    : option (list http_request * result (list json)) :=
  match fuel with
  | O => None
  | S f =>
      let rq := build_request c "GET" path (page_params offset) in
      match _request net c "GET" path (page_params offset) with
      | Err e => Some ([rq], Err e)
      | Ok resp =>
          match page_step data_key results resp with
          | Err e => Some ([rq], Err e)
          | Ok (true, results') => Some ([rq], Ok results')
          | Ok (false, results') =>
              match paginate_loop f net c path data_key (offset + limit) results' with
              | None => None
              | Some (log, r) => Some (rq :: log, r)
              end
          end
      end
  end.

(** [UnifiNetworkApiClient._paginate] *)
Definition _paginate (fuel : nat) (net : http_request -> exchange) (c : client)
    (path data_key : string) : option (list http_request * result (list json)) :=
  paginate_loop fuel net c path data_key 0 [].

(** [get_devices] and [get_clients]: the result of [_paginate] (the request
    log dropped). *)
Definition paginated (o : option (list http_request * result (list json)))
    : option (result (list json)) :=
  match o with None => None | Some (_, r) => Some r end.

Definition get_devices (fuel : nat) (net : http_request -> exchange) (c : client)
    (site_id : string) : option (result (list json)) :=
  paginated (_paginate fuel net c
               (String.append "/v1/sites/" (String.append site_id "/devices")) "data").

Definition get_clients (fuel : nat) (net : http_request -> exchange) (c : client)
    (site_id : string) : option (result (list json)) :=
  paginated (_paginate fuel net c
               (String.append "/v1/sites/" (String.append site_id "/clients")) "data").

(** A value as an f-string prints it.  Containers are printed as a fixed
    text: a device whose [id] is a list or a dict makes the coordinator fail
    on the unhashable key whatever its requests returned. *)
Definition fstr (v : json) : string :=
  match v with
  | JNull => "None"
  | JBool true => "True"
  | JBool false => "False"
  | JNum z => z_str z
  | JStr s => s
  | JArr _ | JObj _ => "<container>"
  end.

Definition device_path (site_id device_id : string) : string :=
  String.append "/v1/sites/"
    (String.append site_id (String.append "/devices/" device_id)).

(** [get_device_details] *)
Definition get_device_details (net : http_request -> exchange) (c : client)
    (site_id device_id : string) : result json :=
  _request net c "GET" (device_path site_id device_id) None.

(** [get_device_statistics] *)
Definition get_device_statistics (net : http_request -> exchange) (c : client)
    (site_id device_id : string) : result json :=
  _request net c "GET"
    (String.append (device_path site_id device_id) "/statistics/latest") None.

(* ------------------------------------------------------------------ *)
(** ** The polling coordinator ([UnifiNetworkApiCoordinator]) *)

(** Keys of a Python dict built from JSON values: the hashable scalars. *)
Inductive pykey : Type :=
| KNull
| KBool (b : bool)
| KNum (z : Z)
| KStr (s : string).

(** [hash(v)] succeeds: lists and dicts are unhashable. *)
Definition to_key (v : json) : result pykey :=
  match v with
  | JNull => Ok KNull
  | JBool b => Ok (KBool b)
  | JNum z => Ok (KNum z)
  | JStr s => Ok (KStr s)
  | JArr _ | JObj _ => Err (OtherError "TypeError")
  end.

(** Python compares these keys by value, with [True == 1] and
    [False == 0]: two keys are equal when their values are. *)
Inductive key_value : Type :=
| NoneKey
| NumKey (z : Z)
| StrKey (s : string).

Global Instance key_value_eq_dec : EqDecision key_value.
Proof. solve_decision. Defined.

Definition key_norm (k : pykey) : key_value :=
  match k with
  | KNull => NoneKey
  | KBool b => NumKey (if b then 1 else 0)%Z
  | KNum z => NumKey z
  | KStr s => StrKey s
  end.

(** [a == b] on dict keys. *)
Definition key_eqb (a b : pykey) : bool := bool_decide (key_norm a = key_norm b).

(** A Python dict as its list of items in insertion order. *)
Fixpoint dict_set {V : Type} (d : list (pykey * V)) (k : pykey) (v : V)
    : list (pykey * V) :=
  match d with
  | [] => [(k, v)]
  | (k', v') :: rest =>
      if key_eqb k' k then (k', v) :: rest else (k', v') :: dict_set rest k v
  end.

Fixpoint dict_lookup {V : Type} (d : list (pykey * V)) (k : pykey) : option V :=
  match d with
  | [] => None
  | (k', v) :: rest => if key_eqb k' k then Some v else dict_lookup rest k
  end.

(** The dict [{"info": device, "details": ..., "statistics": ...}]. *)
Record dev_entry : Type := {
  info : json;
  details : json;
  statistics : json
}.

(** [UnifiNetworkApiCoordinator._fetch_device_data].  Both requests are
    sent; when both fail, [asyncio.gather] reports the one that fails first,
    and the coordinator discards it, so the model reports the details one. *)
Definition _fetch_device_data (net : http_request -> exchange) (c : client)
    (site_id : string) (device : json) : result dev_entry :=
  device_id ← py_getitem device "id";
  d ← get_device_details net c site_id (fstr device_id);
  s ← get_device_statistics net c site_id (fstr device_id);
  Ok {| info := device; details := d; statistics := s |}.

(** The placeholder entry of a device whose fetch failed. *)
Definition placeholder (device : json) : dev_entry :=
  {| info := device; details := JObj []; statistics := JObj [] |}.

(** The loop [for device, result in zip(devices_list, stats_results)]. *)
Fixpoint collect_devices (devices : list (pykey * dev_entry))
    (devices_list : list json) (stats_results : list (result dev_entry))
    : result (list (pykey * dev_entry)) :=
  match devices_list, stats_results with
  | device :: ds, r :: rs =>
      idv ← py_getitem device "id";
      device_id ← to_key idv;
      let entry := match r with
                   | Err _ => placeholder device
                   | Ok e => e
                   end in
      collect_devices (dict_set devices device_id entry) ds rs
  | _, _ => Ok devices
  end.

(** The [devices] dict of a cycle. *)
Definition build_devices (net : http_request -> exchange) (c : client)
    (site_id : string) (devices_list : list json)
    : result (list (pykey * dev_entry)) :=
  match devices_list with
  | [] => Ok []
  | _ => collect_devices [] devices_list
           (map (_fetch_device_data net c site_id) devices_list)
  end.

(** [str.upper] on ASCII text. *)
Definition upper_char (ch : ascii) : ascii :=
  let n := nat_of_ascii ch in
  if andb (Nat.leb 97 n) (Nat.leb n 122) then ascii_of_nat (n - 32) else ch.

Fixpoint py_upper (s : string) : string :=
  match s with
  | EmptyString => EmptyString
  | String ch rest => String (upper_char ch) (py_upper rest)
  end.

(** [client.get("type", "").upper()] *)
Definition client_type (client : json) : result string :=
  t ← py_get client "type" (JStr "");
  match t with
  | JStr s => Ok (py_upper s)
  | _ => Err (OtherError "AttributeError")
  end.

(** The loop "Count clients by type", from the counters [(wired, wireless,
    vpn)]. *)
Fixpoint count_clients (clients_list : list json) (acc : nat * nat * nat)
    : result (nat * nat * nat) :=
  match clients_list with
  | [] => Ok acc
  | client :: rest =>
      client_type_ ← client_type client;
      let '(w, wl, v) := acc in
      let acc' :=
        if String.eqb client_type_ "WIRED" then (S w, wl, v)
        else if String.eqb client_type_ "WIRELESS" then (w, S wl, v)
        else if String.eqb client_type_ "VPN" then (w, wl, S v)
        else (w, wl, v) in
      count_clients rest acc'
  end.

(** The dict returned by [_async_update_data]. *)
Record snapshot : Type := {
  devices : list (pykey * dev_entry);
  clients : list json;
  wans : json;
  client_count : nat;
  client_count_wired : nat;
  client_count_wireless : nat;
  client_count_vpn : nat
}.

(** The body of the [try] after the three top-level fetches returned. *)
Definition build_snapshot (net : http_request -> exchange) (c : client)
    (site_id : string) (devices_list clients_list : list json) (wans_list : json)
    : result snapshot :=
  devs ← build_devices net c site_id devices_list;
  '(w, wl, v) ← count_clients clients_list (0, 0, 0);
  Ok {| devices := devs; clients := clients_list; wans := wans_list;
        client_count := length clients_list;
        client_count_wired := w; client_count_wireless := wl;
        client_count_vpn := v |}.

(** The three awaitables of the first [asyncio.gather]: finished with a
    result, or still running ([None]). *)
Definition errors_of {A : Type} (o : option (result A)) : list exn :=
  match o with Some (Err e) => [e] | _ => [] end.

(** Every possible outcome of [asyncio.gather(a, b, c)]: the triple of
    results when all three succeed; otherwise the first exception raised,
    which may be any of the failures; while nothing failed and some task is
    still running, the gather is still waiting ([None]). *)
Definition gather3 {A B C : Type} (a : option (result A))
    (b : option (result B)) (c : option (result C))
    : list (option (result (A * B * C))) :=
  match a, b, c with
  | Some (Ok x), Some (Ok y), Some (Ok z) => [Some (Ok (x, y, z))]
  | _, _, _ =>
      match errors_of a ++ errors_of b ++ errors_of c with
      | [] => [None]
      | errs => map (fun e => Some (Err e)) errs
      end
  end.

(** What leaves [_async_update_data], as Home Assistant's
    [DataUpdateCoordinator] tells it apart: a snapshot, [UpdateFailed],
    [ConfigEntryAuthFailed] (its re-authentication signal), any other
    exception, or a cycle still running. *)
Inductive cycle_outcome : Type :=
| CycleOk (s : snapshot)
| UpdateFailed (msg : string)
| ConfigEntryAuthFailed (msg : string)
| Unexpected (e : exn)
| CycleRunning.

(** The [except] clauses of [_async_update_data]. *)
Definition handle_update_error (e : exn) : cycle_outcome :=
  match e with
  | UnifiAuthenticationError _ =>
      UpdateFailed (String.append "Authentication failed: " (exn_str e))
  | OtherError _ => Unexpected e
  | _ => UpdateFailed
           (String.append "Error communicating with UniFi API: " (exn_str e))
  end.

Definition finish (r : result snapshot) : cycle_outcome :=
  match r with
  | Ok s => CycleOk s
  | Err e => handle_update_error e
  end.

(** [UnifiNetworkApiCoordinator._async_update_data]: every possible
    outcome of one cycle ([fuel] bounds each pagination loop). *)
Definition _async_update_data (fuel : nat) (net : http_request -> exchange)
    (c : client) (site_id : string) : list cycle_outcome :=
  map (fun g =>
         match g with
         | None => CycleRunning
         | Some (Err e) => handle_update_error e
         | Some (Ok (devices_list, clients_list, wans_list)) =>
             finish (build_snapshot net c site_id devices_list clients_list wans_list)
         end)
    (gather3 (get_devices fuel net c site_id) (get_clients fuel net c site_id)
             (Some (get_wans net c site_id))).

(** The state Home Assistant's [DataUpdateCoordinator] keeps: the published
    snapshot ([coordinator.data]), [last_update_success], and the last
    failure. *)
Record coordinator_state : Type := {
  data : option snapshot;
  last_update_success : bool;
  last_failure : option cycle_outcome
}.

(** [DataUpdateCoordinator._async_refresh] (Home Assistant): a successful
    cycle replaces [data]; a failed one keeps it and records the failure. *)
Definition refresh (st : coordinator_state) (o : cycle_outcome) : coordinator_state :=
  match o with
  | CycleOk s => {| data := Some s; last_update_success := true; last_failure := None |}
  | CycleRunning => st
  | _ => {| data := data st; last_update_success := false; last_failure := Some o |}
  end.

(* ------------------------------------------------------------------ *)
(** ** Vocabulary of the properties *)

(** A page of a list endpoint: the envelope [{"data": [...], "totalCount": n}],
    [totalCount] possibly absent. *)
Record page : Type := {
  pg_data : list json;
  pg_total : option Z
}.

Definition envelope (p : page) : json :=
  JObj (("data"%string, JArr (pg_data p))
          :: match pg_total p with
             | Some t => [("totalCount"%string, JNum t)]
             | None => []
             end).

(** The request [_paginate] sends for its [j]-th page when every page before
    it was full. *)
Definition page_request (c : client) (path : string) (j : nat) : http_request :=
  build_request c "GET" path (page_params (limit * Z.of_nat j)).

(** A server answering the page request [j] with page [pages j]. *)
Definition serves (net : http_request -> exchange) (c : client) (path : string)
    (pages : nat -> page) : Prop :=
  forall j, exists text,
    net (page_request c path j) = ExResponse 200 text (BodyJson (envelope (pages j))).

(** The records of the first [n] pages, in order. *)
Definition fetched (pages : nat -> page) (n : nat) : list json :=
  flat_map (fun j => pg_data (pages j)) (seq 0 n).

(** The [break] condition of [_paginate] after page [j]. *)
Definition breaks_at (pages : nat -> page) (j : nat) : Prop :=
  match pg_total (pages j) with
  | Some t => (t <= Z.of_nat (length (fetched pages (S j))))%Z
  | None => True
  end \/ pg_data (pages j) = [].

(** The [id] of a device listing record, as a dict key. *)
Definition device_key (device : json) : result pykey :=
  idv ← py_getitem device "id"; to_key idv.

Definition device_has_key (device : json) (k : pykey) : bool :=
  match device_key device with Ok kd => key_eqb kd k | Err _ => false end.

Definition device_norm (device : json) : option key_value :=
  match device_key device with Ok kd => Some (key_norm kd) | Err _ => None end.

(** The last device of a list with key [k]. *)
Fixpoint last_with_key (devs : list json) (k : pykey) : option json :=
  match devs with
  | [] => None
  | dv :: ds =>
      match last_with_key ds k with
      | Some x => Some x
      | None => if device_has_key dv k then Some dv else None
      end
  end.

(** The entry a device's fetch produces in the snapshot. *)
Definition device_entry (net : http_request -> exchange) (c : client)
    (site_id : string) (device : json) : dev_entry :=
  match _fetch_device_data net c site_id device with
  | Err _ => placeholder device
  | Ok e => e
  end.

(** Well-formed listing records: a device carries a hashable [id]; a client
    is an object whose [type], when present, is a string. *)
Definition wf_device (device : json) : Prop :=
  exists k, device_key device = Ok k.

Definition wf_client (client : json) : Prop :=
  exists kvs, client = JObj kvs /\
    match assoc "type" kvs with None => True | Some (JStr _) => True | Some _ => False end.

(** Case-insensitive comparison of ASCII text. *)
Definition lower_char (ch : ascii) : ascii :=
  let n := nat_of_ascii ch in
  if andb (Nat.leb 65 n) (Nat.leb n 90) then ascii_of_nat (n + 32) else ch.

Fixpoint ascii_lower (s : string) : string :=
  match s with
  | EmptyString => EmptyString
  | String ch rest => String (lower_char ch) (ascii_lower rest)
  end.

(** A client record whose [type] field matches [name] case-insensitively. *)
Definition type_matches (client : json) (name : string) : bool :=
  match client with
  | JObj kvs => match assoc "type" kvs with
                | Some (JStr s) => String.eqb (ascii_lower s) (ascii_lower name)
                | _ => false
                end
  | _ => false
  end.

Definition count_type (clients_list : list json) (name : string) : nat :=
  length (List.filter (fun cl => type_matches cl name) clients_list).

(** Concrete inputs. *)
Definition demo_client : client := mk_client "192.168.1.1" "secret" false.

(** A controller answering every request with status [status]. *)
Definition net_status (status : Z) : http_request -> exchange :=
  fun _ => ExResponse status "denied" (BodyJson JNull).

(** A controller answering every request with the page [p]. *)
Definition net_page (p : page) : http_request -> exchange :=
  fun _ => ExResponse 200 "" (BodyJson (envelope p)).

(** A site with devices ["a"] and ["b"] whose statistics fetch for ["a"]
    fails, and three clients. *)
Definition demo_url (path : string) : string := String.append (_base_url demo_client) path.

Definition net_site : http_request -> exchange :=
  fun rq =>
    if String.eqb (rq_url rq) (demo_url "/v1/sites/default/devices") then
      ExResponse 200 "" (BodyJson (envelope
        {| pg_data := [JObj [("id"%string, JStr "a")]; JObj [("id"%string, JStr "b")]];
           pg_total := Some 2%Z |}))
    else if String.eqb (rq_url rq) (demo_url "/v1/sites/default/clients") then
      ExResponse 200 "" (BodyJson (envelope
        {| pg_data := [JObj [("type"%string, JStr "wired")]; JObj [];
                       JObj [("type"%string, JStr "VPN")]];
           pg_total := Some 3%Z |}))
    else if String.eqb (rq_url rq) (demo_url "/v1/sites/default/devices/a/statistics/latest") then
      ExResponse 500 "boom" (BodyJson JNull)
    else ExResponse 200 "" (BodyJson (JArr [JObj [("name"%string, JStr "WAN1")]])).

Definition demo_devices_list : list json :=
  [JObj [("id"%string, JStr "a")]; JObj [("id"%string, JStr "b")]].

Definition demo_clients_list : list json :=
  [JObj [("type"%string, JStr "wired")]; JObj []; JObj [("type"%string, JStr "VPN")]].

(** The snapshot of a cycle on [net_site]: device ["a"] has the
    placeholder entry. *)
Definition demo_snapshot : snapshot :=
  {| devices :=
       [(KStr "a", placeholder (JObj [("id"%string, JStr "a")]));
        (KStr "b", {| info := JObj [("id"%string, JStr "b")];
                      details := JArr [JObj [("name"%string, JStr "WAN1")]];
                      statistics := JArr [JObj [("name"%string, JStr "WAN1")]] |})];
     clients := demo_clients_list;
     wans := JArr [JObj [("name"%string, JStr "WAN1")]];
     client_count := 3; client_count_wired := 1; client_count_wireless := 0;
     client_count_vpn := 1 |}.

(* ------------------------------------------------------------------ *)
(** ** The rest of the transport client *)

(** [UnifiNetworkApiClient.get_info] *)
Definition get_info (net : http_request -> exchange) (c : client) : result json :=
  _request net c "GET" "/v1/info" None.

(** [UnifiNetworkApiClient.get_sites] *)
Definition get_sites (fuel : nat) (net : http_request -> exchange) (c : client)
    : option (result (list json)) :=
  paginated (_paginate fuel net c "/v1/sites" "data").

(** The pages of a list endpoint holding the records [recs] that answers
    each page request with the slice [recs[offset:offset+limit]] and
    [totalCount = len(recs)]. *)
Definition slice_pages (recs : list json) (j : nat) : page :=
  {| pg_data := firstn (Z.to_nat limit) (skipn (Z.to_nat (limit * Z.of_nat j)) recs);
     pg_total := Some (Z.of_nat (length recs)) |}.

(** A controller that serves the records [recs] at [path] by [offset] and
    [limit], and answers anything else with 404. *)
Definition net_slices (c : client) (path : string) (recs : list json)
    : http_request -> exchange :=
  fun rq =>
    match rq_params rq with
    | Some [(_, offset); (_, lim)] =>
        if String.eqb (rq_url rq) (String.append (_base_url c) path)
        then ExResponse 200 "" (BodyJson (envelope
               {| pg_data := firstn (Z.to_nat lim) (skipn (Z.to_nat offset) recs);
                  pg_total := Some (Z.of_nat (length recs)) |}))
        else ExResponse 404 "Not Found" (BodyJson JNull)
    | _ => ExResponse 404 "Not Found" (BodyJson JNull)
    end.

(* ------------------------------------------------------------------ *)
(** ** The configuration flow ([config_flow.py]) *)

(** The validated form of the [user] step ([USER_SCHEMA]). *)
Record user_input : Type := {
  ui_host : string;
  ui_api_key : string;
  ui_verify_ssl : option bool
}.

(** The attributes of [UnifiNetworkApiConfigFlow]. *)
Record config_flow : Type := {
  cf_host : string;
  cf_api_key : string;
  cf_verify_ssl : bool;
  cf_sites : list json
}.

(** [UnifiNetworkApiConfigFlow.__init__] *)
Definition config_flow_init : config_flow :=
  {| cf_host := ""; cf_api_key := ""; cf_verify_ssl := false; cf_sites := [] |}.

(** The [data] of a config entry the flow creates. *)
Record entry_data : Type := {
  ed_host : string;
  ed_api_key : string;
  ed_verify_ssl : bool;
  ed_site_id : json;
  ed_site_name : json
}.

(** What a step of the flow returns: a form (with its [errors], or the
    site choices), a created entry with its unique id and title, the abort
    of [_abort_if_unique_id_configured], or an exception leaving the step;
    [FlowRunning] is a pagination still running when the fuel is spent. *)
Inductive flow_result : Type :=
| ShowUserForm (errors : list (string * string))
| ShowSiteForm (site_options : list (pykey * json))
| CreateEntry (unique_id title : string) (d : entry_data)
| AbortAlreadyConfigured
| FlowFailed (e : exn)
| FlowRunning.

(** The [except] clauses of [async_step_user]. *)
Definition flow_error_code (e : exn) : string :=
  match e with
  | UnifiAuthenticationError _ => "invalid_auth"
  | UnifiConnectionError _ _ => "cannot_connect"
  | _ => "unknown"
  end.

(** [site.get("name", site["id"])]: the attribute [get] is looked up
    before the default is evaluated. *)
Definition site_name_of (site : json) : result json :=
  match site with
  | JObj _ => default ← py_getitem site "id"; py_get site "name" default
  | _ => Err (OtherError "AttributeError")
  end.

(** [UnifiNetworkApiConfigFlow._create_entry]; [configured] are the unique
    ids of the entries already configured for the domain. *)
Definition _create_entry (configured : list string) (f : config_flow)
    (site_id site_name : json) : flow_result :=
  let unique_id := String.append (cf_host f) (String.append "_" (fstr site_id)) in
  if existsb (String.eqb unique_id) configured then AbortAlreadyConfigured
  else CreateEntry unique_id
         (String.append "UniFi "
            (String.append (fstr site_name)
               (String.append " (" (String.append (cf_host f) ")"))))
         {| ed_host := cf_host f; ed_api_key := cf_api_key f;
            ed_verify_ssl := cf_verify_ssl f; ed_site_id := site_id;
            ed_site_name := site_name |}.

(** The dict comprehension [{site["id"]: site.get("name", site["id"]) for
    site in self._sites}] (the key is evaluated before the value). *)
Fixpoint site_options_of (acc : list (pykey * json)) (sites : list json)
    : result (list (pykey * json)) :=
  match sites with
  | [] => Ok acc
  | site :: rest =>
      idv ← py_getitem site "id";
      k ← to_key idv;
      name ← site_name_of site;
      site_options_of (dict_set acc k name) rest
  end.

(** The generator of [next(...)] in [async_step_site]: the name of the first
    site whose [id] equals the chosen [site_id] (a [str] equals only an
    equal [str]). *)
Fixpoint find_site_name (sites : list json) (site_id : string) : result (option json) :=
  match sites with
  | [] => Ok None
  | site :: rest =>
      idv ← py_getitem site "id";
      if (match idv with JStr s => String.eqb s site_id | _ => false end)
      then name ← site_name_of site; Ok (Some name)
      else find_site_name rest site_id
  end.

(** [UnifiNetworkApiConfigFlow.async_step_site]; the chosen site is
    [user_input[CONF_SITE_ID]]. *)
Definition async_step_site (configured : list string) (f : config_flow)
    (choice : option string) : flow_result :=
  match choice with
  | Some site_id =>
      match find_site_name (cf_sites f) site_id with
      | Err e => FlowFailed e
      | Ok found =>
          let site_name := match found with Some n => n | None => JStr site_id end in
          _create_entry configured f (JStr site_id) site_name
      end
  | None =>
      match site_options_of [] (cf_sites f) with
      | Err e => FlowFailed e
      | Ok options => ShowSiteForm options
      end
  end.

(** [UnifiNetworkApiConfigFlow.async_step_user], with the flow's new
    attributes. *)
Definition async_step_user (fuel : nat) (net : http_request -> exchange)
    (configured : list string) (f : config_flow) (ui : option user_input)
    : config_flow * flow_result :=
  match ui with
  | None => (f, ShowUserForm [])
  | Some u =>
      let f1 := {| cf_host := ui_host u; cf_api_key := ui_api_key u;
                   cf_verify_ssl := match ui_verify_ssl u with Some b => b | None => false end;
                   cf_sites := cf_sites f |} in
      let cl := mk_client (cf_host f1) (cf_api_key f1) (cf_verify_ssl f1) in
      match get_info net cl with
      | Err e => (f1, ShowUserForm [("base"%string, flow_error_code e)])
      | Ok _ =>
          match get_sites fuel net cl with
          | None => (f1, FlowRunning)
          | Some (Err e) => (f1, ShowUserForm [("base"%string, flow_error_code e)])
          | Some (Ok sites) =>
              let f2 := {| cf_host := cf_host f1; cf_api_key := cf_api_key f1;
                           cf_verify_ssl := cf_verify_ssl f1; cf_sites := sites |} in
              match sites with
              | [] => (f2, ShowUserForm [("base"%string, "no_sites"%string)])
              | [site] =>
                  (f2, match (idv ← py_getitem site "id";
                              name ← site_name_of site; Ok (idv, name)) with
                       | Ok (idv, name) => _create_entry configured f2 idv name
                       | Err e => FlowFailed e
                       end)
              | _ => (f2, async_step_site configured f2 None)
              end
          end
      end
  end.

(** [async_setup_entry] of [__init__.py]: the client and the site the
    coordinator of an entry polls. *)
Definition entry_client (d : entry_data) : client :=
  mk_client (ed_host d) (ed_api_key d) (ed_verify_ssl d).

Definition entry_site_id (d : entry_data) : string := fstr (ed_site_id d).

(* ------------------------------------------------------------------ *)
(** ** The sensor platform ([sensor.py]) *)

(** What the sensors use of Python's [datetime]: [datetime.fromisoformat]
    ([None] when it raises [ValueError]), [dt.tzinfo is None], and
    [dt.replace(tzinfo=timezone.utc)]. *)
Class DateTime (dt : Type) := {
  fromisoformat : string -> option dt;
  tzinfo_is_none : dt -> bool;
  replace_tzinfo_utc : dt -> dt
}.

(** A sensor's value: a decoded JSON value ([None] is [JNull]) or a
    datetime. *)
Inductive sensor_value (dt : Type) : Type :=
| SVJson (j : json)
| SVTime (d : dt).
Arguments SVJson {dt} j.
Arguments SVTime {dt} d.

(** [s.replace("Z", "+00:00")] *)
Fixpoint replace_Z (s : string) : string :=
  match s with
  | EmptyString => EmptyString
  | String ch rest =>
      if Ascii.eqb ch "Z"%char then String.append "+00:00" (replace_Z rest)
      else String ch (replace_Z rest)
  end.

(** [d.get(src, {}).get(field)] *)
Definition get_in (src field : string) (d : json) : result json :=
  sub ← py_get d src (JObj []); py_get sub field JNull.

(** The value of the uplink rate sensors:
    [d.get("statistics", {}).get("uplink", {}).get(field)
     if d.get("statistics", {}).get("uplink") else None]. *)
Definition uplink_rate (field : string) (d : json) : result json :=
  st ← py_get d "statistics" (JObj []);
  up ← py_get st "uplink" JNull;
  if py_truthy up then
    st' ← py_get d "statistics" (JObj []);
    up' ← py_get st' "uplink" (JObj []);
    py_get up' field JNull
  else Ok JNull.

(** The dict [{"info": ..., "details": ..., "statistics": ...}] of a
    device entry. *)
Definition dev_entry_json (e : dev_entry) : json :=
  JObj [("info"%string, info e); ("details"%string, details e);
        ("statistics"%string, statistics e)].

(** [coordinator.data.get("devices", {}).get(device_id, {})] *)
Definition device_data (s : snapshot) (device_id : pykey) : json :=
  match dict_lookup (devices s) device_id with
  | Some e => dev_entry_json e
  | None => JObj []
  end.

Section Sensors.
Context {dt : Type} `{DateTime dt}.

(** [_parse_timestamp]: its [try] catches [ValueError] and [TypeError]
    only; [value.replace] on a value that is not a [str] raises
    [AttributeError]. *)
Definition _parse_timestamp (value : json) : result (sensor_value dt) :=
  if negb (py_truthy value) then Ok (SVJson JNull) else
  match value with
  | JStr s =>
      match fromisoformat (replace_Z s) with
      | None => Ok (SVJson JNull)
      | Some d => Ok (SVTime (if tzinfo_is_none d then replace_tzinfo_utc d else d))
      end
  | _ => Err (OtherError "AttributeError")
  end.

(** [UnifiDeviceSensorDescription]: its [key], its [source] and its
    [value_fn]. *)
Record device_description : Type := {
  dd_key : string;
  dd_source : string;
  value_fn : json -> result (sensor_value dt)
}.

Definition json_value (r : result json) : result (sensor_value dt) :=
  v ← r; Ok (SVJson v).

(** [DEVICE_SENSORS] *)
Definition DEVICE_SENSORS : list device_description := [
  {| dd_key := "state"; dd_source := "info";
     value_fn := fun d => json_value (get_in "info" "state" d) |};
  {| dd_key := "cpu_utilization"; dd_source := "statistics";
     value_fn := fun d => json_value (get_in "statistics" "cpuUtilizationPct" d) |};
  {| dd_key := "memory_utilization"; dd_source := "statistics";
     value_fn := fun d => json_value (get_in "statistics" "memoryUtilizationPct" d) |};
  {| dd_key := "uptime"; dd_source := "statistics";
     value_fn := fun d => json_value (get_in "statistics" "uptimeSec" d) |};
  {| dd_key := "load_average_1min"; dd_source := "statistics";
     value_fn := fun d => json_value (get_in "statistics" "loadAverage1Min" d) |};
  {| dd_key := "load_average_5min"; dd_source := "statistics";
     value_fn := fun d => json_value (get_in "statistics" "loadAverage5Min" d) |};
  {| dd_key := "load_average_15min"; dd_source := "statistics";
     value_fn := fun d => json_value (get_in "statistics" "loadAverage15Min" d) |};
  {| dd_key := "firmware_version"; dd_source := "info";
     value_fn := fun d => json_value (get_in "info" "firmwareVersion" d) |};
  {| dd_key := "firmware_updatable"; dd_source := "info";
     value_fn := fun d => json_value (get_in "info" "firmwareUpdatable" d) |};
  {| dd_key := "uplink_tx_rate"; dd_source := "statistics";
     value_fn := fun d => json_value (uplink_rate "txRateBps" d) |};
  {| dd_key := "uplink_rx_rate"; dd_source := "statistics";
     value_fn := fun d => json_value (uplink_rate "rxRateBps" d) |};
  {| dd_key := "last_heartbeat"; dd_source := "info";
     value_fn := fun d => v ← get_in "info" "lastHeartbeatAt" d; _parse_timestamp v |}
].

(** [UnifiDeviceSensor.native_value] *)
Definition device_native_value (s : snapshot) (device_id : pykey)
    (desc : device_description) : result (sensor_value dt) :=
  value_fn desc (device_data s device_id).

(** [set(...)] of dict keys: the first of equal keys is kept. *)
Fixpoint py_set (l : list pykey) : list pykey :=
  match l with
  | [] => []
  | k :: rest => k :: List.filter (fun k' => negb (key_eqb k k')) (py_set rest)
  end.

Definition mem_key (k : pykey) (s : list pykey) : bool := existsb (key_eqb k) s.

(** [_async_add_new_devices] of [async_setup_entry] on the devices of the
    coordinator's data, with the set [tracked_devices]: the new tracked set
    and the entities passed to [async_add_entities], if it is called (an
    entity is a device id with a description).  A Python set iterates in an
    order of its own; the model takes the order of the dict, which none of
    the properties below depends on. *)
Definition _async_add_new_devices (devs : list (pykey * dev_entry)) (tracked : list pykey)
    : list pykey * option (list (pykey * device_description)) :=
  let current_devices := py_set (map fst devs) in
  let new_device_ids := List.filter (fun k => negb (mem_key k tracked)) current_devices in
  let new_entities :=
    flat_map (fun k => map (fun d => (k, d)) DEVICE_SENSORS) new_device_ids in
  (tracked ++ new_device_ids,
   match new_entities with [] => None | _ => Some new_entities end).

(** The calls of [_async_add_new_devices]: one at setup and one per
    coordinator update, on the devices of the data at that time; the
    batches of entities added, in order. *)
Fixpoint add_devices_run (snaps : list (list (pykey * dev_entry))) (tracked : list pykey)
    : list pykey * list (list (pykey * device_description)) :=
  match snaps with
  | [] => (tracked, [])
  | devs :: rest =>
      let '(t1, batch) := _async_add_new_devices devs tracked in
      let '(t2, batches) := add_devices_run rest t1 in
      (t2, match batch with Some b => b :: batches | None => batches end)
  end.

End Sensors.

Arguments device_description : clear implicits.

(** [UnifiSiteSensorDescription]: its [key] and its [value_fn] on the
    coordinator's data. *)
Record site_description : Type := {
  sd_key : string;
  site_value_fn : snapshot -> json
}.

(** [SITE_SENSORS] *)
Definition SITE_SENSORS : list site_description := [
  {| sd_key := "total_clients"; site_value_fn := fun d => JNum (Z.of_nat (client_count d)) |};
  {| sd_key := "wired_clients"; site_value_fn := fun d => JNum (Z.of_nat (client_count_wired d)) |};
  {| sd_key := "wireless_clients";
     site_value_fn := fun d => JNum (Z.of_nat (client_count_wireless d)) |};
  {| sd_key := "vpn_clients"; site_value_fn := fun d => JNum (Z.of_nat (client_count_vpn d)) |};
  {| sd_key := "device_count"; site_value_fn := fun d => JNum (Z.of_nat (length (devices d))) |}
].

(** [str(device_id)] in an f-string. *)
Definition key_str (k : pykey) : string :=
  match k with
  | KNull => "None"
  | KBool true => "True"
  | KBool false => "False"
  | KNum z => z_str z
  | KStr s => s
  end.

(** [UnifiDeviceSensor._attr_unique_id] *)
Definition device_unique_id (entry_id : string) (device_id : pykey) (key : string) : string :=
  String.append entry_id
    (String.append "_" (String.append (key_str device_id) (String.append "_" key))).

(** [UnifiSiteSensor._attr_unique_id] *)
Definition site_unique_id (entry_id key : string) : string :=
  String.append entry_id (String.append "_" key).

(** [UnifiDeviceSensor.available]: [CoordinatorEntity.available] is the
    coordinator's [last_update_success]. *)
Definition device_available (st : coordinator_state) (device_id : pykey) : result bool :=
  if last_update_success st then
    match data st with
    | Some s => Ok (match dict_lookup (devices s) device_id with Some _ => true | None => false end)
    | None => Err (OtherError "AttributeError")
    end
  else Ok false.

(* ------------------------------------------------------------------ *)
(** ** The configuration flow, the entity batches and the unique ids *)

(** The client [async_step_user] builds from the validated form [u]. *)
Definition user_client (u : user_input) : client :=
  mk_client (ui_host u) (ui_api_key u)
    (match ui_verify_ssl u with Some b => b | None => false end).


Section EntityBatches.
Context {dt : Type} {DT : DateTime dt}.

(** The identity of a device sensor entity: the normalised device id and the
    key of its description. *)
Definition ent_norm (x : pykey * device_description dt) : key_value * string :=
  (key_norm (fst x), dd_key (snd x)).

(** The entities [_async_add_new_devices] creates for the new device ids
    [ids]: one per device and description, device by device. *)
Definition batch_of (ids : list pykey) : list (pykey * device_description dt) :=
  flat_map (fun k => map (fun d => (k, d)) DEVICE_SENSORS) ids.

End EntityBatches.

(** The keys of [DEVICE_SENSORS] and of [SITE_SENSORS]. *)
Definition DEVICE_KEYS : list string :=
  ["state"; "cpu_utilization"; "memory_utilization"; "uptime";
   "load_average_1min"; "load_average_5min"; "load_average_15min";
   "firmware_version"; "firmware_updatable"; "uplink_tx_rate";
   "uplink_rx_rate"; "last_heartbeat"]%string.

Definition SITE_KEYS : list string :=
  ["total_clients"; "wired_clients"; "wireless_clients"; "vpn_clients"; "device_count"]%string.

(** Whether the characters [b] end with ["_"] followed by [a]. *)
Definition sep_suffix (a b : list ascii) : bool :=
  Nat.leb (S (length a)) (length b) &&
  bool_decide (skipn (length b - S (length a)) b = "_"%char :: a).

(** More concrete inputs. *)

(** A [datetime] whose [fromisoformat] gives a naive value ([false]: no
    [tzinfo]) and whose [replace(tzinfo=timezone.utc)] gives an aware one. *)
Definition demo_datetime : DateTime bool :=
  {| fromisoformat := fun _ => Some false;
     tzinfo_is_none := negb;
     replace_tzinfo_utc := fun _ => true |}.

(** The [state] entry of [DEVICE_SENSORS] and the [device_count] entry of
    [SITE_SENSORS]. *)
Definition state_description : device_description bool :=
  {| dd_key := "state"; dd_source := "info";
     value_fn := fun d => json_value (get_in "info" "state" d) |}.

Definition device_count_description : site_description :=
  {| sd_key := "device_count"; site_value_fn := fun d => JNum (Z.of_nat (length (devices d))) |}.

(** One record, a total of one. *)
Definition null_record_page : page := {| pg_data := [JNull]; pg_total := Some 1%Z |}.

(** A device listing whose only device has no [id]. *)
Definition nameless_device_page : page :=
  {| pg_data := [JObj [("name"%string, JStr "sw")]]; pg_total := Some 1%Z |}.

(** A record with an [id] whose [type] is [null]. *)
Definition untyped_record_page : page :=
  {| pg_data := [JObj [("id"%string, JStr "a"); ("type"%string, JNull)]]; pg_total := Some 1%Z |}.

(** A controller with the single site [default] named [Home]. *)
Definition single_site_page : page :=
  {| pg_data := [JObj [("id"%string, JStr "default"); ("name"%string, JStr "Home")]];
     pg_total := Some 1%Z |}.

Definition demo_user_input : user_input :=
  {| ui_host := "192.168.1.1"; ui_api_key := "secret"; ui_verify_ssl := None |}.

(** Two device records with the same [id]. *)
Definition duplicate_id_page : page :=
  {| pg_data := [JObj [("id"%string, JStr "a"); ("name"%string, JStr "first")];
                 JObj [("id"%string, JStr "a"); ("name"%string, JStr "second")]];
     pg_total := Some 2%Z |}.

(** The snapshot of the cycle on [net_page duplicate_id_page]. *)
Definition duplicate_id_snapshot : snapshot :=
  match _async_update_data 5 (net_page duplicate_id_page) demo_client "default" with
  | [CycleOk s] => s
  | _ => demo_snapshot
  end.

(** The records [0 .. n-1]. *)
Definition numbered_records (n : nat) : list json := map (fun i => JNum (Z.of_nat i)) (seq 0 n).

(** One record, a total of three. *)
Definition one_of_three_page : page := {| pg_data := [JNull]; pg_total := Some 3%Z |}.

(** A controller that answers the info request of [demo_user_input] and
    refuses everything else with 403. *)
Definition net_sites_forbidden : http_request -> exchange :=
  fun rq =>
    if String.eqb (rq_url rq)
         (String.append (_base_url (user_client demo_user_input)) "/v1/info")
    then ExResponse 200 "" (BodyJson (JObj []))
    else ExResponse 403 "Forbidden" (BodyJson JNull).

(* ------------------------------------------------------------------ *)
(** ** Transport client *)

Lemma str_append_assoc (a b d : string) :
  String.append (String.append a b) d = String.append a (String.append b d).
Proof. induction a as [|ch a IH]; [reflexivity | exact (f_equal (String ch) IH)]. Qed.

(** C6: for every request of the transport client: a response with status
    401 or 403 fails with [UnifiAuthenticationError]; any other status but
    200 fails with [UnifiApiError] whose message ends with the response body
    text; a low-level transport failure ([aiohttp.ClientError]) fails with
    [UnifiConnectionError] wrapping that error; a 200 response returns the
    decoded JSON body. *)
Theorem request_status_mapping :
  forall (net : http_request -> exchange) (c : client) (method path : string)
         (params : option (list (string * Z))),
  (forall status text body,
     net (build_request c method path params) = ExResponse status text body ->
     (status = 401 \/ status = 403)%Z ->
     exists msg, _request net c method path params = Err (UnifiAuthenticationError msg)) /\
  (forall status text body,
     net (build_request c method path params) = ExResponse status text body ->
     status <> 200%Z -> status <> 401%Z -> status <> 403%Z ->
     exists prefix,
       _request net c method path params = Err (UnifiApiError (String.append prefix text))) /\
  (forall err,
     net (build_request c method path params) = ExClientError err ->
     exists msg, _request net c method path params = Err (UnifiConnectionError msg err)) /\
  (forall text j,
     net (build_request c method path params) = ExResponse 200 text (BodyJson j) ->
     _request net c method path params = Ok j).
Proof.
  intros net c method path params; unfold _request.
  split; [|split; [|split]].
  - intros status text body Hnet Hs. rewrite Hnet. simpl.
    destruct Hs as [-> | ->]; simpl; eexists; reflexivity.
  - intros status text body Hnet H200 H401 H403. rewrite Hnet. unfold handle_exchange.
    apply Z.eqb_neq in H200, H401, H403. rewrite H200, H401, H403. cbn [orb negb].
    exists (String.append "API request failed (" (String.append (z_str status) "): ")).
    now rewrite !str_append_assoc.
  - intros err Hnet. rewrite Hnet. simpl. eexists. reflexivity.
  - intros text j Hnet. rewrite Hnet. reflexivity.
Qed.

(** C7: [get_wans] gives the same list for a bare JSON array and for an
    object whose [data] key holds that array. *)
Theorem get_wans_normalizes :
  forall (net1 net2 : http_request -> exchange) (c : client) (site_id text1 text2 : string)
         (l : list json) (kvs : list (string * json)),
  let rq := build_request c "GET"
              (String.append "/v1/sites/" (String.append site_id "/wans")) None in
  net1 rq = ExResponse 200 text1 (BodyJson (JArr l)) ->
  net2 rq = ExResponse 200 text2 (BodyJson (JObj kvs)) ->
  assoc "data" kvs = Some (JArr l) ->
  get_wans net1 c site_id = Ok (JArr l) /\ get_wans net2 c site_id = Ok (JArr l).
Proof.
  intros net1 net2 c site_id text1 text2 l kvs rq H1 H2 Hdata.
  unfold get_wans, _request; fold rq. rewrite H1, H2. simpl.
  now rewrite Hdata.
Qed.

Lemma get_wans_normalizes_witness :
  get_wans (fun _ => ExResponse 200 "" (BodyJson (JArr [JObj [("id"%string, JStr "w")]])))
           demo_client "default"
  = get_wans (fun _ => ExResponse 200 "" (BodyJson
                 (JObj [("data"%string, JArr [JObj [("id"%string, JStr "w")]])])))
           demo_client "default".
Proof.
  destruct (get_wans_normalizes
              (fun _ => ExResponse 200 "" (BodyJson (JArr [JObj [("id"%string, JStr "w")]])))
              (fun _ => ExResponse 200 "" (BodyJson
                 (JObj [("data"%string, JArr [JObj [("id"%string, JStr "w")]])])))
              demo_client "default" "" "" [JObj [("id"%string, JStr "w")]]
              [("data"%string, JArr [JObj [("id"%string, JStr "w")]])]
              eq_refl eq_refl eq_refl) as [Ha Hb].
  rewrite Ha, Hb. reflexivity.
Defined.

Lemma str_append_cons (ch : ascii) (a b : string) :
  String.append (String ch a) b = String ch (String.append a b).
Proof. reflexivity. Qed.

Lemma str_append_empty_r (s : string) : String.append s EmptyString = s.
Proof.
  induction s as [|ch s IH]; [reflexivity|]. rewrite str_append_cons. now f_equal.
Qed.

Lemma rstrip_slash_trailing (s : string) :
  rstrip_slash (String.append s "/") = rstrip_slash s.
Proof.
  induction s as [|ch s IH]; [reflexivity|].
  rewrite str_append_cons. simpl rstrip_slash. now rewrite IH.
Qed.

Fixpoint slashes (n : nat) : string :=
  match n with O => EmptyString | S k => String "/" (slashes k) end.

Lemma rstrip_slash_slashes (s : string) (n : nat) :
  rstrip_slash (String.append s (slashes n)) = rstrip_slash s.
Proof.
  revert s. induction n as [|n IH]; intros s.
  - now rewrite str_append_empty_r.
  - replace (String.append s (slashes (S n)))
      with (String.append (String.append s "/") (slashes n)).
    + now rewrite IH, rstrip_slash_trailing.
    + rewrite str_append_assoc. reflexivity.
Qed.

Lemma rstrip_slash_cons (ch : ascii) (rest : string) :
  rstrip_slash (String ch rest) =
  match rstrip_slash rest with
  | EmptyString => if Ascii.eqb ch "/"%char then EmptyString else String ch EmptyString
  | r => String ch r
  end.
Proof. reflexivity. Qed.

Lemma rstrip_slash_idem (s : string) : rstrip_slash (rstrip_slash s) = rstrip_slash s.
Proof.
  induction s as [|ch s IH]; simpl; [reflexivity|].
  destruct (rstrip_slash s) as [|ch' r] eqn:E.
  - destruct (Ascii.eqb ch "/"%char) eqn:Ec; simpl; [reflexivity|].
    now rewrite Ec.
  - rewrite rstrip_slash_cons, IH. reflexivity.
Qed.

(** C10: a host given with trailing slashes builds the same client, hence the
    same base URL and the same request for every method, path and query, as
    the host with its trailing slashes removed. *)
Theorem host_trailing_slashes :
  forall (host api_key : string) (verify_ssl : bool) (n : nat)
         (method path : string) (params : option (list (string * Z))),
  let stripped := rstrip_slash host in
  mk_client (String.append stripped (slashes n)) api_key verify_ssl
    = mk_client stripped api_key verify_ssl /\
  _base_url (mk_client (String.append host (slashes n)) api_key verify_ssl)
    = _base_url (mk_client stripped api_key verify_ssl) /\
  build_request (mk_client (String.append host (slashes n)) api_key verify_ssl) method path params
    = build_request (mk_client stripped api_key verify_ssl) method path params.
Proof.
  intros host api_key verify_ssl n method path params stripped.
  assert (Hc : forall h, mk_client (String.append h (slashes n)) api_key verify_ssl
                      = mk_client (rstrip_slash h) api_key verify_ssl).
  { intros h. unfold mk_client. now rewrite rstrip_slash_slashes, rstrip_slash_idem. }
  subst stripped. split; [|split].
  - rewrite Hc, rstrip_slash_idem. reflexivity.
  - now rewrite Hc.
  - now rewrite Hc.
Qed.

(* ------------------------------------------------------------------ *)
(** ** Pagination *)

Lemma paginate_loop_step fuel net c path data_key offset results :
  paginate_loop (S fuel) net c path data_key offset results =
  let rq := build_request c "GET" path (page_params offset) in
  match _request net c "GET" path (page_params offset) with
  | Err e => Some ([rq], Err e)
  | Ok resp =>
      match page_step data_key results resp with
      | Err e => Some ([rq], Err e)
      | Ok (true, results') => Some ([rq], Ok results')
      | Ok (false, results') =>
          match paginate_loop fuel net c path data_key (offset + limit) results' with
          | None => None
          | Some (log, r) => Some (rq :: log, r)
          end
      end
  end.
Proof. reflexivity. Qed.

Lemma fetched_S pages j : fetched pages (S j) = fetched pages j ++ pg_data (pages j).
Proof.
  unfold fetched. rewrite seq_S, flat_map_app. simpl. now rewrite app_nil_r.
Qed.

Lemma offset_succ i : (limit * Z.of_nat i + limit = limit * Z.of_nat (S i))%Z.
Proof. rewrite Nat2Z.inj_succ. unfold limit. lia. Qed.

Lemma page_step_fetched pages j :
  exists b, page_step "data" (fetched pages j) (envelope (pages j))
            = Ok (b, fetched pages (S j)) /\ (b = true <-> breaks_at pages j).
Proof.
  rewrite fetched_S. unfold breaks_at. rewrite fetched_S.
  destruct (pages j) as [d [t|]]; simpl; eexists; (split; [reflexivity|]).
  - destruct d as [|x d]; simpl.
    + rewrite orb_true_r. split; [intros _; now right | reflexivity].
    + rewrite orb_false_r, Z.geb_leb, Z.leb_le. split; [intros H; now left|].
      intros [H|H]; [exact H | discriminate].
  - split; [intros _; now left|]. intros _.
    apply orb_true_intro. left. rewrite Z.geb_leb. apply Z.leb_refl.
Qed.

Lemma paginate_loop_pages net c path pages :
  serves net c path pages ->
  forall m i fuel,
  (forall j, i <= j < i + m -> ~ breaks_at pages j) ->
  breaks_at pages (i + m) -> m < fuel ->
  paginate_loop fuel net c path "data" (limit * Z.of_nat i) (fetched pages i) =
  Some (map (page_request c path) (seq i (S m)), Ok (fetched pages (S (i + m)))).
Proof.
  intros Hserve m. induction m as [|m IH]; intros i fuel Hno Hbrk Hfuel;
    (destruct fuel as [|fuel]; [lia|]);
    rewrite paginate_loop_step; cbv zeta; unfold _request;
    destruct (Hserve i) as [text Hnet]; unfold page_request in Hnet;
    rewrite Hnet; simpl handle_exchange;
    destruct (page_step_fetched pages i) as [b [Hstep Hb]]; rewrite Hstep.
  - rewrite Nat.add_0_r in Hbrk |- *.
    assert (b = true) as -> by (apply Hb; exact Hbrk). reflexivity.
  - destruct b.
    + exfalso. apply (Hno i); [lia|]. now apply Hb.
    + rewrite offset_succ, (IH (S i) fuel); [| | |lia].
      * replace (S (S i + m)) with (S (i + S m)) by lia. reflexivity.
      * intros j Hj. apply Hno. lia.
      * now replace (S i + m) with (i + S m) by lia.
Qed.

Lemma breaks_at_dec pages j : {breaks_at pages j} + {~ breaks_at pages j}.
Proof.
  unfold breaks_at. destruct (pg_data (pages j)) as [|x l].
  - left. now right.
  - destruct (pg_total (pages j)) as [t|].
    + destruct (Z_le_dec t (Z.of_nat (length (fetched pages (S j))))) as [H|H].
      * left. now left.
      * right. intros [H'|H']; [exact (H H') | discriminate].
    + left. now left.
Qed.

Lemma breaks_first_upto pages n :
  (forall j, j < n -> ~ breaks_at pages j) \/
  exists k, k < n /\ breaks_at pages k /\ forall j, j < k -> ~ breaks_at pages j.
Proof.
  induction n as [|n [IH|IH]].
  - left. intros j Hj. lia.
  - destruct (breaks_at_dec pages n) as [Hb|Hb].
    + right. exists n. repeat split; [lia|exact Hb|exact IH].
    + left. intros j Hj. destruct (Nat.eq_dec j n) as [->|Hne]; [exact Hb|].
      apply IH. lia.
  - right. destruct IH as [k [Hk Hrest]]. exists k. split; [lia|exact Hrest].
Qed.

(** C3: if, among the pages a server sends, page [k] is empty or brings the
    accumulated count to its [totalCount], [_paginate] stops at the first
    page [k' <= k] where its break condition holds: with fuel enough for
    [k' + 1] requests it returns the records of pages [0 .. k'] concatenated
    in order, and the requests it sent are exactly those for pages
    [0 .. k'], in order (none after the terminating page). *)
Theorem paginate_terminates_with_concatenation :
  forall (net : http_request -> exchange) (c : client) (path : string)
         (pages : nat -> page) (k : nat),
  serves net c path pages ->
  (pg_data (pages k) = [] \/
   exists t, pg_total (pages k) = Some t /\ (t <= Z.of_nat (length (fetched pages (S k))))%Z) ->
  exists k', k' <= k /\ breaks_at pages k' /\
    (forall j, j < k' -> ~ breaks_at pages j) /\
    forall fuel, k' < fuel ->
      _paginate fuel net c path "data"
      = Some (map (page_request c path) (seq 0 (S k')), Ok (fetched pages (S k'))).
Proof.
  intros net c path pages k Hserve Hk.
  assert (Hbk : breaks_at pages k).
  { unfold breaks_at. destruct Hk as [Hk|[t [Ht Hle]]].
    - now right.
    - left. now rewrite Ht. }
  destruct (breaks_first_upto pages (S k)) as [Hnone|[k' [Hlt [Hb' Hfirst]]]].
  - exfalso. exact (Hnone k (Nat.lt_succ_diag_r k) Hbk).
  - exists k'. repeat split; [lia|exact Hb'|exact Hfirst|].
    intros fuel Hfuel. unfold _paginate.
    exact (paginate_loop_pages net c path pages Hserve k' 0 fuel
             (fun j Hj => Hfirst j (proj2 Hj)) Hb' Hfuel).
Qed.

(** Two pages of a controller that slices 201 numbered records: the run
    sends two requests and returns the records in order. *)
Lemma paginate_terminates_with_concatenation_witness :
  (exists k', k' <= 1 /\ breaks_at (slice_pages (numbered_records 201)) k' /\
    (forall j, j < k' -> ~ breaks_at (slice_pages (numbered_records 201)) j) /\
    forall fuel, k' < fuel ->
      _paginate fuel (net_slices demo_client "/v1/sites/default/clients" (numbered_records 201))
        demo_client "/v1/sites/default/clients" "data"
      = Some (map (page_request demo_client "/v1/sites/default/clients") (seq 0 (S k')),
              Ok (fetched (slice_pages (numbered_records 201)) (S k')))) /\
  _paginate 2 (net_slices demo_client "/v1/sites/default/clients" (numbered_records 201))
    demo_client "/v1/sites/default/clients" "data"
  = Some ([page_request demo_client "/v1/sites/default/clients" 0;
           page_request demo_client "/v1/sites/default/clients" 1], Ok (numbered_records 201)).
Proof.
  assert (H := paginate_terminates_with_concatenation
           (net_slices demo_client "/v1/sites/default/clients" (numbered_records 201)) demo_client
           "/v1/sites/default/clients" (slice_pages (numbered_records 201)) 1).
  destruct H as [k' [Hk' [Hb [Hfirst Hrun]]]].
  - intros j. exists ""%string. unfold net_slices, page_request, build_request, page_params.
    cbn [rq_params rq_url]. rewrite String.eqb_refl. reflexivity.
  - right. exists 201%Z. split; [reflexivity|]. vm_compute. discriminate.
  - split; [exists k'; split; [exact Hk'|split; [exact Hb|split; [exact Hfirst|exact Hrun]]]|].
    destruct k' as [|[|k']]; [|clear Hk'|lia].
    + exfalso. vm_compute in Hb. destruct Hb as [Hb|Hb]; [apply Hb; reflexivity|discriminate].
    + rewrite (Hrun 2 ltac:(lia)). vm_compute. reflexivity.
Defined.

Lemma paginate_loop_log fuel net c path data_key :
  forall i results log r,
  paginate_loop fuel net c path data_key (limit * Z.of_nat i) results = Some (log, r) ->
  log = map (page_request c path) (seq i (length log)).
Proof.
  induction fuel as [|fuel IH]; intros i results log r Hrun; [discriminate|].
  rewrite paginate_loop_step in Hrun. cbv zeta in Hrun.
  destruct (_request net c "GET" path (page_params (limit * Z.of_nat i))) as [resp|e];
    [|injection Hrun as <- _; reflexivity].
  destruct (page_step data_key results resp) as [[[|] results']|e];
    [injection Hrun as <- _; reflexivity| |injection Hrun as <- _; reflexivity].
  rewrite offset_succ in Hrun.
  destruct (paginate_loop fuel net c path data_key (limit * Z.of_nat (S i)) results')
    as [[log' r']|] eqn:Hrest; [|discriminate].
  injection Hrun as <- _. simpl. f_equal.
  exact (IH (S i) results' log' r' Hrest).
Qed.

(** C4 (as amended): in every run of [_paginate], the [j]-th request has
    offset [200 * j] and limit [200]: each request's offset exceeds the
    previous one by the fixed limit 200, whatever the number of records the
    previous page returned. *)
Theorem paginate_offsets_step_by_limit :
  forall (fuel : nat) (net : http_request -> exchange) (c : client)
         (path data_key : string) (log : list http_request) (r : result (list json)),
  _paginate fuel net c path data_key = Some (log, r) ->
  log = map (page_request c path) (seq 0 (length log)) /\
  forall j rq, log !! j = Some rq ->
    rq_params rq = Some [("offset"%string, (200 * Z.of_nat j)%Z); ("limit"%string, 200%Z)].
Proof.
  intros fuel net c path data_key log r Hrun.
  assert (Hlog : log = map (page_request c path) (seq 0 (length log))).
  { exact (paginate_loop_log fuel net c path data_key 0 [] log r Hrun). }
  split; [exact Hlog|].
  intros j rq Hj. rewrite Hlog in Hj.
  rewrite list_lookup_fmap in Hj.
  destruct (seq 0 (length log) !! j) as [j'|] eqn:Hs; [|discriminate].
  apply lookup_seq in Hs as [-> _].
  injection Hj as <-. reflexivity.
Qed.

Lemma paginate_offsets_step_by_limit_witness :
  map rq_params
    (map (page_request demo_client "/v1/sites/default/clients") (seq 0 2))
  = [Some [("offset"%string, 0%Z); ("limit"%string, 200%Z)];
     Some [("offset"%string, 200%Z); ("limit"%string, 200%Z)]] /\
  forall j rq,
    map (page_request demo_client "/v1/sites/default/clients") (seq 0 2) !! j = Some rq ->
    rq_params rq = Some [("offset"%string, (200 * Z.of_nat j)%Z); ("limit"%string, 200%Z)].
Proof.
  split; [reflexivity|].
  apply (paginate_offsets_step_by_limit 5
           (net_page {| pg_data := [JNull]; pg_total := Some 2%Z |}) demo_client
           "/v1/sites/default/clients" "data" _ (Ok [JNull; JNull])).
  vm_compute. reflexivity.
Defined.

(** C4 refuted: each page of this server holds one record out of a
    [totalCount] of 2; the second request's offset is 200, not the first
    offset plus the one record the first page returned. *)
Lemma paginate_offset_not_page_size :
  _paginate 5 (net_page {| pg_data := [JNull]; pg_total := Some 2%Z |}) demo_client
    "/v1/sites/default/clients" "data"
  = Some ([page_request demo_client "/v1/sites/default/clients" 0;
           page_request demo_client "/v1/sites/default/clients" 1],
          Ok [JNull; JNull]) /\
  rq_params (page_request demo_client "/v1/sites/default/clients" 0)
    = Some [("offset"%string, 0%Z); ("limit"%string, 200%Z)] /\
  rq_params (page_request demo_client "/v1/sites/default/clients" 1)
    = Some [("offset"%string, 200%Z); ("limit"%string, 200%Z)] /\
  (200 <> 0 + Z.of_nat (length [JNull]))%Z.
Proof. split; [vm_compute; reflexivity|]. split; [reflexivity|]. split; [reflexivity|]. discriminate. Qed.

(** C8: when the first page's envelope has no [totalCount], [_paginate]
    takes the accumulated count as the total: it returns exactly that page's
    records after a single request, however many records the page holds. *)
Theorem paginate_without_total_single_page :
  forall (fuel : nat) (net : http_request -> exchange) (c : client)
         (path text : string) (kvs : list (string * json)) (d : list json),
  net (page_request c path 0) = ExResponse 200 text (BodyJson (JObj kvs)) ->
  assoc "data" kvs = Some (JArr d) ->
  assoc "totalCount" kvs = None ->
  _paginate (S fuel) net c path "data" = Some ([page_request c path 0], Ok d).
Proof.
  intros fuel net c path text kvs d Hnet Hdata Htotal.
  unfold _paginate. rewrite paginate_loop_step. cbv zeta. unfold _request.
  change (build_request c "GET" path (page_params 0)) with (page_request c path 0).
  rewrite Hnet. simpl handle_exchange.
  unfold page_step, py_get. rewrite Hdata, Htotal.
  unfold mbind, result_bind. simpl py_iter. cbv beta iota.
  unfold py_int_ge. rewrite Z.geb_leb, Z.leb_refl. reflexivity.
Qed.

Lemma paginate_without_total_single_page_witness :
  _paginate 3 (net_page {| pg_data := repeat JNull 200; pg_total := None |}) demo_client
    "/v1/sites/default/devices" "data"
  = Some ([page_request demo_client "/v1/sites/default/devices" 0], Ok (repeat JNull 200)).
Proof.
  apply (paginate_without_total_single_page 2
           (net_page {| pg_data := repeat JNull 200; pg_total := None |}) demo_client
           "/v1/sites/default/devices" "" [("data"%string, JArr (repeat JNull 200))]
           (repeat JNull 200)); reflexivity.
Defined.

(* ------------------------------------------------------------------ *)
(** ** Coordinator: outcomes of a cycle *)

Lemma bind_ok {A B : Type} (m : result A) (f : A -> result B) (b : B) :
  mbind f m = Ok b -> exists a, m = Ok a /\ f a = Ok b.
Proof. destruct m as [a|e]; simpl; [eauto|discriminate]. Qed.

Lemma handle_update_error_failure (e : exn) :
  (forall s, handle_update_error e <> CycleOk s) /\
  handle_update_error e <> CycleRunning /\
  (forall m, handle_update_error e <> ConfigEntryAuthFailed m).
Proof. destruct e; simpl; repeat split; discriminate. Qed.

Lemma finish_not_auth (r : result snapshot) (m : string) :
  finish r <> ConfigEntryAuthFailed m.
Proof. destruct r as [s|e]; [discriminate|apply handle_update_error_failure]. Qed.

Lemma finish_ok (r : result snapshot) (s : snapshot) : finish r = CycleOk s -> r = Ok s.
Proof.
  destruct r as [s'|e]; simpl; [congruence|].
  intros H. exfalso. exact (proj1 (handle_update_error_failure e) s H).
Qed.

Lemma gather3_ok {A B C : Type} (a : option (result A)) (b : option (result B))
    (c : option (result C)) x y z :
  In (Some (Ok (x, y, z))) (gather3 a b c) ->
  a = Some (Ok x) /\ b = Some (Ok y) /\ c = Some (Ok z).
Proof.
  destruct a as [[xa|ea]|], b as [[xb|eb]|], c as [[xc|ec]|]; simpl;
    intros H; repeat destruct H as [H|H]; try discriminate; try contradiction;
    (injection H as -> -> ->; auto).
Qed.

Lemma gather3_err_in {A B C : Type} (a : option (result A)) (b : option (result B))
    (c : option (result C)) e :
  In e (errors_of a ++ errors_of b ++ errors_of c) -> In (Some (Err e)) (gather3 a b c).
Proof.
  destruct a as [[xa|ea]|], b as [[xb|eb]|], c as [[xc|ec]|]; simpl;
    intros H; repeat destruct H as [H|H]; subst; simpl; auto; contradiction.
Qed.

Lemma gather3_only_err {A B C : Type} (a : option (result A)) (b : option (result B))
    (c : option (result C)) e0 g :
  In e0 (errors_of a ++ errors_of b ++ errors_of c) ->
  In g (gather3 a b c) -> exists e, g = Some (Err e).
Proof.
  destruct a as [[xa|ea]|], b as [[xb|eb]|], c as [[xc|ec]|]; simpl;
    intros H0 H; try contradiction; repeat destruct H as [H|H]; subst; eauto; contradiction.
Qed.

(** A snapshot comes only from a cycle whose three fetches succeeded. *)
Lemma update_data_ok fuel net c site_id s :
  In (CycleOk s) (_async_update_data fuel net c site_id) ->
  exists devices_list clients_list wans_list,
    get_devices fuel net c site_id = Some (Ok devices_list) /\
    get_clients fuel net c site_id = Some (Ok clients_list) /\
    get_wans net c site_id = Ok wans_list /\
    build_snapshot net c site_id devices_list clients_list wans_list = Ok s.
Proof.
  unfold _async_update_data. intros H. apply in_map_iff in H as [g [Hg Hin]].
  destruct g as [[[[dl cl] wl]|e]|].
  - apply gather3_ok in Hin as (Hd & Hc & Hw). injection Hw as Hw.
    exists dl, cl, wl. repeat split; auto. now apply finish_ok.
  - exfalso. exact (proj1 (handle_update_error_failure e) s Hg).
  - discriminate.
Qed.

Lemma build_snapshot_ok net c site_id dl cl wl s :
  build_snapshot net c site_id dl cl wl = Ok s ->
  exists w wls v,
    build_devices net c site_id dl = Ok (devices s) /\
    count_clients cl (0, 0, 0) = Ok (w, wls, v) /\
    clients s = cl /\ client_count s = length cl /\
    client_count_wired s = w /\ client_count_wireless s = wls /\ client_count_vpn s = v.
Proof.
  unfold build_snapshot. intros H.
  apply bind_ok in H as [devs [Hdevs H]].
  apply bind_ok in H as [[[w wls] v] [Hcount H]].
  injection H as <-. exists w, wls, v. simpl. auto 10.
Qed.

(* ------------------------------------------------------------------ *)
(** ** Coordinator: counting clients *)

Lemma upper_char_nat (a : ascii) :
  upper_char a =
  ascii_of_nat (if andb (Nat.leb 97 (nat_of_ascii a)) (Nat.leb (nat_of_ascii a) 122)
                then nat_of_ascii a - 32 else nat_of_ascii a).
Proof. unfold upper_char. destruct (andb _ _); [reflexivity|now rewrite ascii_nat_embedding]. Qed.

Lemma lower_char_nat (a : ascii) :
  lower_char a =
  ascii_of_nat (if andb (Nat.leb 65 (nat_of_ascii a)) (Nat.leb (nat_of_ascii a) 90)
                then nat_of_ascii a + 32 else nat_of_ascii a).
Proof. unfold lower_char. destruct (andb _ _); [reflexivity|now rewrite ascii_nat_embedding]. Qed.

Lemma ascii_of_nat_inj (x y : nat) :
  x < 256 -> y < 256 -> ascii_of_nat x = ascii_of_nat y -> x = y.
Proof.
  intros Hx Hy H. rewrite <- (nat_ascii_embedding x Hx), <- (nat_ascii_embedding y Hy).
  now rewrite H.
Qed.

(** Upper-casing two characters makes them equal exactly when lower-casing
    does. *)
Lemma upper_lower_char (a b : ascii) :
  upper_char a = upper_char b <-> lower_char a = lower_char b.
Proof.
  rewrite !upper_char_nat, !lower_char_nat.
  pose proof (nat_ascii_bounded a) as Ha. pose proof (nat_ascii_bounded b) as Hb.
  generalize dependent (nat_of_ascii a). generalize dependent (nat_of_ascii b).
  intros m Hm n Hn.
  destruct (Nat.leb_spec 97 n), (Nat.leb_spec n 122), (Nat.leb_spec 65 n), (Nat.leb_spec n 90),
    (Nat.leb_spec 97 m), (Nat.leb_spec m 122), (Nat.leb_spec 65 m), (Nat.leb_spec m 90);
    simpl; split; intros Heq; apply ascii_of_nat_inj in Heq; try lia; f_equal; lia.
Qed.

Lemma upper_lower_str (s t : string) :
  py_upper s = py_upper t <-> ascii_lower s = ascii_lower t.
Proof.
  revert t. induction s as [|a s IH]; intros [|b t]; simpl;
    split; intros H; try discriminate; try reflexivity;
    injection H as Hab Hst; f_equal; [apply upper_lower_char| apply IH| apply upper_lower_char| apply IH];
    assumption.
Qed.

Lemma client_type_matches (cl : json) (t name : string) :
  client_type cl = Ok t -> py_upper name = name -> name <> EmptyString ->
  type_matches cl name = String.eqb t name.
Proof.
  intros Ht Hup Hne. destruct cl as [| | | | |kvs]; try discriminate.
  unfold client_type, py_get in Ht. simpl in Ht. unfold type_matches.
  destruct (assoc "type" kvs) as [v|].
  - destruct v; try discriminate. injection Ht as <-.
    destruct (String.eqb_spec (ascii_lower s) (ascii_lower name)) as [E|E];
      destruct (String.eqb_spec (py_upper s) name) as [F|F]; try reflexivity.
    + exfalso. apply F. rewrite <- Hup. now apply upper_lower_str.
    + exfalso. apply E. apply upper_lower_str. now rewrite Hup.
  - injection Ht as <-. symmetry. apply String.eqb_neq. intros E. now apply Hne.
Qed.

Lemma count_type_cons (cl : json) (rest : list json) (name : string) :
  count_type (cl :: rest) name = (if type_matches cl name then 1 else 0) + count_type rest name.
Proof. unfold count_type. simpl. now destruct (type_matches cl name). Qed.

Lemma count_clients_spec (l : list json) :
  forall w wl v w' wl' v',
  count_clients l (w, wl, v) = Ok (w', wl', v') ->
  w' = w + count_type l "WIRED" /\ wl' = wl + count_type l "WIRELESS" /\
  v' = v + count_type l "VPN".
Proof.
  induction l as [|cl rest IH]; intros w wl v w' wl' v' H.
  - simpl in H. injection H as <- <- <-. unfold count_type. simpl. lia.
  - simpl in H. destruct (client_type cl) as [t|e] eqn:Ht; [|discriminate].
    simpl in H. rewrite !count_type_cons.
    rewrite !(client_type_matches cl t) by (assumption || reflexivity || discriminate).
    destruct (String.eqb_spec t "WIRED") as [->|E1]; simpl in H.
    { apply IH in H. simpl. lia. }
    destruct (String.eqb_spec t "WIRELESS") as [->|E2]; simpl in H.
    { apply IH in H. simpl. lia. }
    destruct (String.eqb_spec t "VPN") as [->|E3]; simpl in H.
    { apply IH in H. simpl. lia. }
    apply IH in H. lia.
Qed.

Lemma count_clients_bound (l : list json) :
  forall w wl v w' wl' v',
  count_clients l (w, wl, v) = Ok (w', wl', v') ->
  w' + wl' + v' <= w + wl + v + length l.
Proof.
  induction l as [|cl rest IH]; intros w wl v w' wl' v' H.
  - simpl in H. injection H as <- <- <-. simpl. lia.
  - simpl in H. destruct (client_type cl) as [t|e]; [|discriminate]. simpl in H.
    destruct (String.eqb t "WIRED"); [apply IH in H; simpl; lia|].
    destruct (String.eqb t "WIRELESS"); [apply IH in H; simpl; lia|].
    destruct (String.eqb t "VPN"); apply IH in H; simpl; lia.
Qed.

Lemma count_clients_total (l : list json) :
  Forall wf_client l -> forall acc, exists r, count_clients l acc = Ok r.
Proof.
  induction 1 as [|cl rest Hcl Hrest IH]; intros [[w wl] v]; [eexists; reflexivity|].
  destruct Hcl as [kvs [-> Htype]].
  assert (exists t, client_type (JObj kvs) = Ok t) as [t Ht].
  { unfold client_type, py_get. simpl.
    destruct (assoc "type" kvs) as [[]|]; try contradiction; eexists; reflexivity. }
  simpl. rewrite Ht. simpl. apply IH.
Qed.

(* ------------------------------------------------------------------ *)
(** ** Coordinator: the devices dict *)

Lemma key_eqb_norm (a b : pykey) : key_eqb a b = true <-> key_norm a = key_norm b.
Proof. unfold key_eqb. apply bool_decide_eq_true. Qed.

Lemma dict_lookup_set {V : Type} (d : list (pykey * V)) (k : pykey) (v : V) (k' : pykey) :
  dict_lookup (dict_set d k v) k' = if key_eqb k k' then Some v else dict_lookup d k'.
Proof.
  induction d as [|[k1 v1] rest IH]; [reflexivity|].
  cbn [dict_set]. destruct (key_eqb k1 k) eqn:E1.
  - cbn [dict_lookup]. apply key_eqb_norm in E1. unfold key_eqb. rewrite E1.
    destruct (bool_decide (key_norm k = key_norm k')); reflexivity.
  - cbn [dict_lookup]. rewrite IH.
    unfold key_eqb in *. rewrite bool_decide_eq_false in E1.
    repeat case_bool_decide; congruence.
Qed.

Lemma dict_lookup_in_keys {V : Type} (d : list (pykey * V)) (k : pykey) :
  dict_lookup d k <> None <-> In (key_norm k) (map (fun kv => key_norm (fst kv)) d).
Proof.
  induction d as [|[k1 v1] rest IH]; simpl; [split; [congruence|contradiction]|].
  unfold key_eqb. case_bool_decide as Hk.
  - split; [intros _; now left | discriminate].
  - rewrite IH. split; [now right|]. intros [H|H]; [contradiction|exact H].
Qed.

Lemma collect_devices_lookup (f : json -> result dev_entry) (devs : list json) :
  forall acc d', collect_devices acc devs (map f devs) = Ok d' ->
  forall k, dict_lookup d' k =
    match last_with_key devs k with
    | Some dv => Some (match f dv with Err _ => placeholder dv | Ok e => e end)
    | None => dict_lookup acc k
    end.
Proof.
  induction devs as [|dv ds IH]; intros acc d' H k.
  - injection H as <-. reflexivity.
  - cbn [collect_devices map] in H.
    apply bind_ok in H as [idv [Hid H]]. apply bind_ok in H as [kd [Hkd H]].
    rewrite (IH _ _ H k). cbn [last_with_key].
    destruct (last_with_key ds k); [reflexivity|].
    rewrite dict_lookup_set. unfold device_has_key, device_key.
    rewrite Hid. cbn [mbind result_bind]. rewrite Hkd.
    destruct (key_eqb kd k); reflexivity.
Qed.

Lemma collect_devices_ok (f : json -> result dev_entry) (devs : list json) :
  Forall wf_device devs ->
  forall acc, exists d', collect_devices acc devs (map f devs) = Ok d'.
Proof.
  induction 1 as [|dv ds [kd Hkd] _ IH]; intros acc; [eexists; reflexivity|].
  unfold device_key in Hkd. apply bind_ok in Hkd as [idv [Hid Hk]].
  cbn [collect_devices map]. rewrite Hid. cbn [mbind result_bind]. rewrite Hk.
  cbn [mbind result_bind]. apply IH.
Qed.

Lemma build_devices_collect net c site_id devices_list :
  build_devices net c site_id devices_list
  = collect_devices [] devices_list (map (_fetch_device_data net c site_id) devices_list).
Proof. destruct devices_list; reflexivity. Qed.

Lemma last_with_key_some (devs : list json) (k : pykey) (dv : json) :
  last_with_key devs k = Some dv -> In dv devs /\ device_has_key dv k = true.
Proof.
  induction devs as [|d ds IH]; cbn [last_with_key]; [discriminate|].
  destruct (last_with_key ds k) as [x|].
  - intros Hx. destruct (IH Hx). split; [now right | assumption].
  - destruct (device_has_key d k) eqn:Ed; [|discriminate].
    intros Hx. injection Hx as <-. split; [now left | exact Ed].
Qed.

Lemma last_with_key_found (devs : list json) (k : pykey) (dv : json) :
  In dv devs -> device_has_key dv k = true -> exists x, last_with_key devs k = Some x.
Proof.
  induction devs as [|d ds IH]; cbn [last_with_key In]; [contradiction|].
  intros [<-|Hin] Hk.
  - destruct (last_with_key ds k); [eauto|]. rewrite Hk. eauto.
  - destruct (IH Hin Hk) as [x Hx]. rewrite Hx. eauto.
Qed.

Lemma device_has_own_key (dv : json) (kd : pykey) :
  device_key dv = Ok kd -> device_has_key dv kd = true.
Proof. intros H. unfold device_has_key. rewrite H. now apply key_eqb_norm. Qed.

Lemma last_with_key_unique (devs : list json) (dv : json) (kd : pykey) :
  NoDup (map device_norm devs) -> In dv devs -> device_key dv = Ok kd ->
  last_with_key devs kd = Some dv.
Proof.
  induction devs as [|d ds IH]; cbn [In]; [contradiction|].
  intros Hnd Hin Hkd. cbn [map] in Hnd. apply NoDup_cons in Hnd as [Hnotin Hnd].
  cbn [last_with_key]. destruct Hin as [<-|Hin].
  - destruct (last_with_key ds kd) as [x|] eqn:E.
    + exfalso. apply last_with_key_some in E as [Hx Hxk]. apply Hnotin.
      apply list_elem_of_In, in_map_iff. exists x. split; [|exact Hx].
      unfold device_has_key in Hxk. unfold device_norm.
      destruct (device_key x) as [kx|]; [|discriminate].
      rewrite Hkd. apply key_eqb_norm in Hxk. now rewrite Hxk.
    + now rewrite (device_has_own_key d kd Hkd).
  - now rewrite (IH Hnd Hin Hkd).
Qed.

(* ------------------------------------------------------------------ *)
(** ** Coordinator: the properties *)

(** C2 (as amended): when the three top-level fetches of a cycle succeed on well-formed
    listings (devices with pairwise distinct ids, clients whose [type] is a
    string when present), the cycle succeeds with a single snapshot in which
    every device whose detail/statistics fetch failed has the placeholder
    [{info: device, details: {}, statistics: {}}] and every device whose
    fetch succeeded has the fetched entry. *)
Theorem device_failure_isolated :
  forall (fuel : nat) (net : http_request -> exchange) (c : client) (site_id : string)
         (devices_list clients_list : list json) (wans_list : json),
  get_devices fuel net c site_id = Some (Ok devices_list) ->
  get_clients fuel net c site_id = Some (Ok clients_list) ->
  get_wans net c site_id = Ok wans_list ->
  Forall wf_device devices_list ->
  NoDup (map device_norm devices_list) ->
  Forall wf_client clients_list ->
  exists s, _async_update_data fuel net c site_id = [CycleOk s] /\
    forall device, In device devices_list ->
      exists k, device_key device = Ok k /\
        (forall e, _fetch_device_data net c site_id device = Err e ->
           dict_lookup (devices s) k = Some (placeholder device)) /\
        (forall entry, _fetch_device_data net c site_id device = Ok entry ->
           dict_lookup (devices s) k = Some entry).
Proof.
  intros fuel net c site_id dl cl wl Hd Hc Hw Hwfd Hnd Hwfc.
  destruct (collect_devices_ok (_fetch_device_data net c site_id) dl Hwfd []) as [devs Hdevs].
  destruct (count_clients_total cl Hwfc (0, 0, 0)) as [[[w wls] v] Hcount].
  set (s := {| devices := devs; clients := cl; wans := wl; client_count := length cl;
               client_count_wired := w; client_count_wireless := wls;
               client_count_vpn := v |}).
  assert (Hsnap : build_snapshot net c site_id dl cl wl = Ok s).
  { unfold build_snapshot. rewrite build_devices_collect, Hdevs.
    cbn [mbind result_bind]. rewrite Hcount. reflexivity. }
  exists s. split.
  - unfold _async_update_data. rewrite Hd, Hc, Hw. cbn [gather3 map].
    now rewrite Hsnap.
  - intros device Hin.
    assert (Hwf : wf_device device) by exact (proj1 (List.Forall_forall _ _) Hwfd device Hin).
    destruct Hwf as [kd Hkd]. exists kd. split; [exact Hkd|].
    pose proof (collect_devices_lookup _ dl [] devs Hdevs kd) as Hlk.
    rewrite (last_with_key_unique dl device kd Hnd Hin Hkd) in Hlk.
    cbn [devices s]. rewrite Hlk.
    split; intros ? Hf; now rewrite Hf.
Qed.

Lemma device_failure_isolated_witness :
  _async_update_data 5 net_site demo_client "default" = [CycleOk demo_snapshot] /\
  dict_lookup (devices demo_snapshot) (KStr "a")
    = Some (placeholder (JObj [("id"%string, JStr "a")])).
Proof.
  assert (H := device_failure_isolated 5 net_site demo_client "default"
                 demo_devices_list demo_clients_list
                 (JArr [JObj [("name"%string, JStr "WAN1")]])).
  destruct H as [s [Hs Hdev]].
  - vm_compute. reflexivity.
  - vm_compute. reflexivity.
  - vm_compute. reflexivity.
  - repeat constructor; eexists; reflexivity.
  - vm_compute. constructor; [|constructor; [|constructor]];
      rewrite list_elem_of_In; simpl; intuition discriminate.
  - repeat constructor; eexists; (split; [reflexivity|exact I]).
  - assert (Hdemo : s = demo_snapshot).
    { assert (Hc : _async_update_data 5 net_site demo_client "default"
                   = [CycleOk demo_snapshot]) by (vm_compute; reflexivity).
      rewrite Hc in Hs. congruence. }
    subst s. split; [exact Hs|].
    destruct (Hdev (JObj [("id"%string, JStr "a")]) (or_introl eq_refl))
      as [k [Hk [Hfail _]]].
    vm_compute in Hk. injection Hk as <-.
    apply (Hfail (UnifiApiError "API request failed (500): boom")).
    vm_compute. reflexivity.
Defined.

(** C2 refuted without its conditions on the listings: on a controller
    whose only device record has no [id], the three top-level fetches
    succeed and the cycle fails with [KeyError] instead of returning a
    snapshot; on a controller listing two records with the same [id] ["a"],
    the fetch for the first record succeeds, yet the snapshot's entry for
    ["a"] is not that fetched entry (it is the second record's). *)
Lemma device_failure_not_isolated :
  get_devices 5 (net_page nameless_device_page) demo_client "default"
    = Some (Ok [JObj [("name"%string, JStr "sw")]]) /\
  get_clients 5 (net_page nameless_device_page) demo_client "default"
    = Some (Ok [JObj [("name"%string, JStr "sw")]]) /\
  get_wans (net_page nameless_device_page) demo_client "default"
    = Ok (JArr [JObj [("name"%string, JStr "sw")]]) /\
  _async_update_data 5 (net_page nameless_device_page) demo_client "default"
    = [Unexpected (OtherError "KeyError")] /\
  get_devices 5 (net_page duplicate_id_page) demo_client "default"
    = Some (Ok (pg_data duplicate_id_page)) /\
  get_clients 5 (net_page duplicate_id_page) demo_client "default"
    = Some (Ok (pg_data duplicate_id_page)) /\
  get_wans (net_page duplicate_id_page) demo_client "default"
    = Ok (JArr (pg_data duplicate_id_page)) /\
  exists s e1,
    _async_update_data 5 (net_page duplicate_id_page) demo_client "default" = [CycleOk s] /\
    _fetch_device_data (net_page duplicate_id_page) demo_client "default"
      (JObj [("id"%string, JStr "a"); ("name"%string, JStr "first")]) = Ok e1 /\
    dict_lookup (devices s) (KStr "a") <> Some e1.
Proof.
  do 7 (split; [vm_compute; reflexivity|]).
  exists duplicate_id_snapshot,
         (match _fetch_device_data (net_page duplicate_id_page) demo_client "default"
                  (JObj [("id"%string, JStr "a"); ("name"%string, JStr "first")]) with
          | Ok e => e | Err _ => placeholder JNull end).
  split; [vm_compute; reflexivity|]. split; [vm_compute; reflexivity|].
  vm_compute. discriminate.
Qed.

(** C5: in every snapshot of a successful cycle, [client_count_wired],
    [client_count_wireless] and [client_count_vpn] are the numbers of fetched
    client records whose [type] equals [WIRED], [WIRELESS] and [VPN] up to
    ASCII case, and [client_count] is the number of all fetched records. *)
Theorem client_counts_by_type :
  forall (fuel : nat) (net : http_request -> exchange) (c : client)
         (site_id : string) (s : snapshot),
  In (CycleOk s) (_async_update_data fuel net c site_id) ->
  exists clients_list,
    get_clients fuel net c site_id = Some (Ok clients_list) /\
    clients s = clients_list /\
    client_count_wired s = count_type clients_list "WIRED" /\
    client_count_wireless s = count_type clients_list "WIRELESS" /\
    client_count_vpn s = count_type clients_list "VPN" /\
    client_count s = length clients_list.
Proof.
  intros fuel net c site_id s H.
  apply update_data_ok in H as (dl & cl & wl & Hd & Hc & Hw & Hb).
  apply build_snapshot_ok in Hb as (w & wls & v & _ & Hcount & Hcl & Hcc & Hw' & Hwl & Hv).
  apply count_clients_spec in Hcount as (Ew & Ewl & Ev).
  exists cl. repeat split; auto; lia.
Qed.

Lemma client_counts_by_type_witness :
  exists clients_list,
    get_clients 5 net_site demo_client "default" = Some (Ok clients_list) /\
    clients demo_snapshot = clients_list /\
    client_count_wired demo_snapshot = count_type clients_list "WIRED" /\
    client_count_wireless demo_snapshot = count_type clients_list "WIRELESS" /\
    client_count_vpn demo_snapshot = count_type clients_list "VPN" /\
    client_count demo_snapshot = length clients_list.
Proof.
  apply (client_counts_by_type 5 net_site demo_client "default" demo_snapshot).
  vm_compute. left. reflexivity.
Defined.

(** C9: every snapshot of a successful cycle has
    [client_count_wired + client_count_wireless + client_count_vpn <=
    client_count], and the keys of its [devices] dict are exactly the [id]
    values of the fetched device list (as Python compares keys). *)
Theorem snapshot_invariants :
  forall (fuel : nat) (net : http_request -> exchange) (c : client)
         (site_id : string) (s : snapshot),
  In (CycleOk s) (_async_update_data fuel net c site_id) ->
  client_count_wired s + client_count_wireless s + client_count_vpn s <= client_count s /\
  exists devices_list,
    get_devices fuel net c site_id = Some (Ok devices_list) /\
    forall x, In x (map (fun kv => key_norm (fst kv)) (devices s)) <->
      exists device k, In device devices_list /\ device_key device = Ok k /\ key_norm k = x.
Proof.
  intros fuel net c site_id s H.
  apply update_data_ok in H as (dl & cl & wl & Hd & Hc & Hw & Hb).
  apply build_snapshot_ok in Hb as (w & wls & v & Hdevs & Hcount & Hcl & Hcc & Hw' & Hwl & Hv).
  split.
  { apply count_clients_bound in Hcount. lia. }
  exists dl. split; [exact Hd|].
  rewrite build_devices_collect in Hdevs.
  pose proof (collect_devices_lookup _ dl [] (devices s) Hdevs) as Hlk.
  intros x. split.
  - intros Hx. apply in_map_iff in Hx as [[k e] [<- Hke]]. cbn [fst].
    assert (Hne : dict_lookup (devices s) k <> None).
    { apply dict_lookup_in_keys. apply in_map_iff. exists (k, e). auto. }
    rewrite Hlk in Hne.
    destruct (last_with_key dl k) as [dv|] eqn:E; [|contradiction].
    apply last_with_key_some in E as [Hin Hhas].
    unfold device_has_key in Hhas. destruct (device_key dv) as [kd|] eqn:Ekd; [|discriminate].
    exists dv, kd. split; [exact Hin|]. split; [exact Ekd|]. now apply key_eqb_norm.
  - intros (dv & kd & Hin & Hkd & <-).
    apply dict_lookup_in_keys. rewrite Hlk.
    destruct (last_with_key_found dl kd dv Hin (device_has_own_key dv kd Hkd)) as [y Hy].
    now rewrite Hy.
Qed.

Lemma snapshot_invariants_witness :
  client_count_wired demo_snapshot + client_count_wireless demo_snapshot
    + client_count_vpn demo_snapshot <= client_count demo_snapshot /\
  exists devices_list,
    get_devices 5 net_site demo_client "default" = Some (Ok devices_list) /\
    forall x, In x (map (fun kv => key_norm (fst kv)) (devices demo_snapshot)) <->
      exists device k, In device devices_list /\ device_key device = Ok k /\ key_norm k = x.
Proof.
  apply (snapshot_invariants 5 net_site demo_client "default" demo_snapshot).
  vm_compute. left. reflexivity.
Defined.

(** C1 refuted: on a controller answering every request with 401, the
    devices fetch fails with [UnifiAuthenticationError], and every outcome
    of the cycle is the generic [UpdateFailed], not the distinct
    [ConfigEntryAuthFailed]. *)
Lemma auth_failure_is_update_failed :
  get_devices 5 (net_status 401) demo_client "default"
    = Some (Err (UnifiAuthenticationError "Authentication failed: 401")) /\
  _async_update_data 5 (net_status 401) demo_client "default"
    = [UpdateFailed "Authentication failed: Authentication failed: 401";
       UpdateFailed "Authentication failed: Authentication failed: 401";
       UpdateFailed "Authentication failed: Authentication failed: 401"].
Proof. split; vm_compute; reflexivity. Qed.

(** C1 (as amended): if one of the three top-level fetches fails with an
    authentication error, the cycle fails: one possible outcome (the one
    where [asyncio.gather] reports that error) is [UpdateFailed] with message
    ["Authentication failed: ..."], the same exception class as for any other
    API failure; no outcome is [ConfigEntryAuthFailed], a snapshot, or a
    still-running cycle; and refreshing with any outcome keeps the
    previously published snapshot and marks the update as failed. *)
Theorem auth_failure_update_failed :
  forall (fuel : nat) (net : http_request -> exchange) (c : client)
         (site_id msg : string),
  (get_devices fuel net c site_id = Some (Err (UnifiAuthenticationError msg)) \/
   get_clients fuel net c site_id = Some (Err (UnifiAuthenticationError msg)) \/
   get_wans net c site_id = Err (UnifiAuthenticationError msg)) ->
  In (UpdateFailed (String.append "Authentication failed: " msg))
     (_async_update_data fuel net c site_id) /\
  forall o, In o (_async_update_data fuel net c site_id) ->
    (forall m, o <> ConfigEntryAuthFailed m) /\ (forall s, o <> CycleOk s) /\
    o <> CycleRunning /\
    forall st, data (refresh st o) = data st /\ last_update_success (refresh st o) = false.
Proof.
  intros fuel net c site_id msg Hauth.
  set (a := get_devices fuel net c site_id).
  set (b := get_clients fuel net c site_id).
  set (w := Some (get_wans net c site_id)).
  assert (Hin : In (UnifiAuthenticationError msg) (errors_of a ++ errors_of b ++ errors_of w)).
  { subst a b w. destruct Hauth as [H|[H|H]]; rewrite H; simpl;
      rewrite ?in_app_iff; simpl; tauto. }
  unfold _async_update_data. fold a b w.
  split.
  - apply in_map_iff. exists (Some (Err (UnifiAuthenticationError msg))).
    split; [reflexivity|]. now apply gather3_err_in.
  - intros o Ho. apply in_map_iff in Ho as [g [<- Hg]].
    destruct (gather3_only_err a b w _ g Hin Hg) as [e ->].
    destruct (handle_update_error_failure e) as (H1 & H2 & H3).
    split; [exact H3|]. split; [exact H1|]. split; [exact H2|].
    intros st. destruct e; split; reflexivity.
Qed.

Lemma auth_failure_update_failed_witness :
  In (UpdateFailed "Authentication failed: Authentication failed: 401")
     (_async_update_data 5 (net_status 401) demo_client "default") /\
  forall o, In o (_async_update_data 5 (net_status 401) demo_client "default") ->
    (forall m, o <> ConfigEntryAuthFailed m) /\ (forall s, o <> CycleOk s) /\
    o <> CycleRunning /\
    forall st, data (refresh st o) = data st /\ last_update_success (refresh st o) = false.
Proof.
  apply (auth_failure_update_failed 5 (net_status 401) demo_client "default"
           "Authentication failed: 401").
  left. vm_compute. reflexivity.
Defined.

(* ------------------------------------------------------------------ *)
(** ** Transport client: response shapes and pagination runs *)



Lemma firstn_add_skipn {A : Type} (a b : nat) (l : list A) :
  firstn (a + b) l = firstn a l ++ firstn b (skipn a l).
Proof.
  revert l. induction a as [|a IH]; intros l; [reflexivity|].
  destruct l as [|x l]; simpl; [now rewrite firstn_nil|]. f_equal. apply IH.
Qed.

Lemma page_offset_nat (j : nat) : Z.to_nat (limit * Z.of_nat j) = 200 * j.
Proof. unfold limit. rewrite <- (Nat2Z.id (200 * j)). f_equal. lia. Qed.

Lemma slice_fetched (recs : list json) (n : nat) :
  fetched (slice_pages recs) n = firstn (200 * n) recs.
Proof.
  induction n as [|n IH]; [reflexivity|].
  rewrite fetched_S, IH. unfold slice_pages. cbn [pg_data].
  rewrite page_offset_nat. change (Z.to_nat limit) with 200.
  rewrite <- firstn_add_skipn. f_equal. lia.
Qed.

Lemma slice_breaks_at (recs : list json) (j : nat) :
  breaks_at (slice_pages recs) j <-> length recs <= 200 * S j.
Proof.
  unfold breaks_at. rewrite slice_fetched. unfold slice_pages at 1 2. cbn [pg_total pg_data].
  rewrite length_firstn. split.
  - intros [H|H]; [lia|].
    apply (f_equal (@length json)) in H. rewrite length_firstn, length_skipn in H.
    rewrite page_offset_nat in H. change (Z.to_nat limit) with 200 in H. simpl length in H. lia.
  - intros H. left. lia.
Qed.

(** Against a controller that serves the records [recs] by [offset] and
    [limit] with a correct [totalCount], [_paginate] (with enough fuel)
    returns exactly [recs], in order, after the requests for pages
    [0 .. (len(recs) - 1) / 200], one request for an empty list. *)
Theorem paginate_consistent_server :
  forall (net : http_request -> exchange) (c : client) (path : string)
         (recs : list json) (fuel : nat),
  serves net c path (slice_pages recs) ->
  (length recs - 1) / 200 < fuel ->
  _paginate fuel net c path "data"
  = Some (map (page_request c path) (seq 0 (S ((length recs - 1) / 200))), Ok recs).
Proof.
  intros net c path recs fuel Hserve Hfuel.
  set (k := (length recs - 1) / 200) in *.
  assert (Hk1 : 200 * k <= length recs - 1) by (apply Nat.Div0.mul_div_le; lia).
  assert (Hk2 : length recs - 1 < 200 * S k).
  { pose proof (Nat.div_mod_eq (length recs - 1) 200).
    pose proof (Nat.mod_upper_bound (length recs - 1) 200). fold k in H. lia. }
  pose proof (paginate_loop_pages net c path (slice_pages recs) Hserve k 0 fuel) as Hl.
  unfold _paginate. change 0%Z with (limit * Z.of_nat 0)%Z.
  change (@nil json) with (fetched (slice_pages recs) 0).
  rewrite Hl; [| |now apply slice_breaks_at; lia|exact Hfuel].
  - rewrite slice_fetched, firstn_all2; [reflexivity|lia].
  - intros j Hj. rewrite slice_breaks_at. lia.
Qed.

(** 201 records come in two pages. *)
Lemma paginate_consistent_server_witness :
  serves (net_slices demo_client "/v1/sites" (repeat JNull 201)) demo_client "/v1/sites"
    (slice_pages (repeat JNull 201)) /\
  (length (repeat JNull 201) - 1) / 200 < 2 /\
  _paginate 2 (net_slices demo_client "/v1/sites" (repeat JNull 201)) demo_client "/v1/sites" "data"
  = Some (map (page_request demo_client "/v1/sites") (seq 0 2), Ok (repeat JNull 201)).
Proof.
  assert (Hs : serves (net_slices demo_client "/v1/sites" (repeat JNull 201)) demo_client
                 "/v1/sites" (slice_pages (repeat JNull 201))).
  { intros j. exists ""%string. unfold net_slices, page_request, build_request, page_params.
    cbn [rq_params rq_url]. rewrite String.eqb_refl. reflexivity. }
  assert (Hf : (length (repeat JNull 201) - 1) / 200 < 2)
    by (apply Nat.ltb_lt; vm_compute; reflexivity).
  split; [exact Hs|]. split; [exact Hf|].
  exact (paginate_consistent_server _ demo_client "/v1/sites" (repeat JNull 201) 2 Hs Hf).
Defined.

Lemma page_step_envelope (results : list json) (p : page) :
  page_step "data" results (envelope p)
  = Ok (orb (Z.geb (Z.of_nat (length (results ++ pg_data p)))
               (match pg_total p with Some t => t | None => Z.of_nat (length (results ++ pg_data p)) end))
            (negb (py_truthy (JArr (pg_data p)))),
        results ++ pg_data p).
Proof. destruct p as [d [t|]]; reflexivity. Qed.

Lemma paginate_loop_bounded (net : http_request -> exchange) (c : client) (path : string)
    (T : nat) :
  (forall rq, exists p text, pg_data p <> [] /\
     (forall t, pg_total p = Some t -> (t <= Z.of_nat T)%Z) /\
     net rq = ExResponse 200 text (BodyJson (envelope p))) ->
  forall fuel offset results, T <= length results + fuel -> 0 < fuel ->
  exists log rs, paginate_loop fuel net c path "data" offset results = Some (log, Ok rs) /\
    1 <= length log <= Nat.max 1 (T - length results).
Proof.
  intros Hnet fuel. induction fuel as [|fuel IH]; intros offset results HT Hf; [lia|].
  rewrite paginate_loop_step. cbv zeta. unfold _request.
  destruct (Hnet (build_request c "GET" path (page_params offset))) as (p & text & Hne & Ht & Hn).
  rewrite Hn. simpl handle_exchange. cbv iota beta. rewrite page_step_envelope.
  assert (Hlen : length (pg_data p) >= 1) by (destruct (pg_data p); [congruence|simpl; lia]).
  rewrite length_app.
  destruct (orb _ _) eqn:Eb.
  - do 2 eexists. split; [reflexivity|]. simpl. lia.
  - apply orb_false_iff in Eb as [Eb _].
    destruct (pg_total p) as [t|] eqn:Et.
    + specialize (Ht t eq_refl).
      assert (Eb2 : (t <= Z.of_nat (length results + length (pg_data p)))%Z -> False)
        by (intros Hle; apply Z.geb_le in Hle; congruence).
      destruct (IH (offset + limit)%Z (results ++ pg_data p)) as (log & rs & Hl & Hlog);
        [rewrite length_app; lia|lia|].
      rewrite Hl. exists (build_request c "GET" path (page_params offset) :: log), rs.
      split; [reflexivity|]. rewrite length_app in Hlog. simpl. lia.
    + assert (Hr := Z.le_refl (Z.of_nat (length results + length (pg_data p)))).
      apply Z.geb_le in Hr. congruence.
Qed.

(** If every answer is a non-empty page whose [totalCount], when present, is
    at most [T], [_paginate] succeeds after at least one and at most
    [max 1 T] requests. *)
Theorem paginate_bounded_by_total :
  forall (net : http_request -> exchange) (c : client) (path : string) (T fuel : nat),
  (forall rq, exists p text, pg_data p <> [] /\
     (forall t, pg_total p = Some t -> (t <= Z.of_nat T)%Z) /\
     net rq = ExResponse 200 text (BodyJson (envelope p))) ->
  T <= fuel -> 0 < fuel ->
  exists log rs, _paginate fuel net c path "data" = Some (log, Ok rs) /\
    1 <= length log <= Nat.max 1 T.
Proof.
  intros net c path T fuel Hnet HT Hf.
  destruct (paginate_loop_bounded net c path T Hnet fuel 0 [] ltac:(simpl; lia) Hf)
    as (log & rs & Hl & Hlog).
  exists log, rs. split; [exact Hl|]. simpl in Hlog. lia.
Qed.

(** A controller answering every request with one record out of three:
    the run needs three requests. *)
Lemma paginate_bounded_by_total_witness :
  (forall rq, exists p text, pg_data p <> [] /\
     (forall t, pg_total p = Some t -> (t <= Z.of_nat 3)%Z) /\
     net_page one_of_three_page rq = ExResponse 200 text (BodyJson (envelope p))) /\
  3 <= 3 /\ 0 < 3 /\
  (exists log rs, _paginate 3 (net_page one_of_three_page) demo_client "/v1/sites" "data"
                  = Some (log, Ok rs) /\ 1 <= length log <= Nat.max 1 3) /\
  _paginate 3 (net_page one_of_three_page) demo_client "/v1/sites" "data"
  = Some (map (page_request demo_client "/v1/sites") (seq 0 3), Ok [JNull; JNull; JNull]).
Proof.
  assert (Hn : forall rq, exists p text, pg_data p <> [] /\
     (forall t, pg_total p = Some t -> (t <= Z.of_nat 3)%Z) /\
     net_page one_of_three_page rq = ExResponse 200 text (BodyJson (envelope p))).
  { intros rq. exists one_of_three_page, ""%string. split; [discriminate|]. split; [|reflexivity].
    intros t Ht. injection Ht as <-. lia. }
  split; [exact Hn|]. split; [lia|]. split; [lia|]. split.
  - exact (paginate_bounded_by_total (net_page one_of_three_page) demo_client "/v1/sites" 3 3
             Hn ltac:(lia) ltac:(lia)).
  - vm_compute. reflexivity.
Defined.

(* ------------------------------------------------------------------ *)
(** ** Coordinator: failing cycles and the devices dict *)
Lemma update_data_errors fuel net c site_id e :
  In e (errors_of (get_devices fuel net c site_id) ++ errors_of (get_clients fuel net c site_id)
        ++ errors_of (Some (get_wans net c site_id))) ->
  In (handle_update_error e) (_async_update_data fuel net c site_id) /\
  forall o, In o (_async_update_data fuel net c site_id) -> exists e', o = handle_update_error e'.
Proof.
  intros Hin. unfold _async_update_data. split.
  - apply in_map_iff. exists (Some (Err e)). split; [reflexivity|]. now apply gather3_err_in.
  - intros o Ho. apply in_map_iff in Ho as [g [<- Hg]].
    destruct (gather3_only_err _ _ _ _ g Hin Hg) as [e' ->]. eauto.
Qed.

(** If the devices, clients or wans fetch of a cycle fails with [e]: an [e]
    that is no [UnifiApiError] can leave the cycle as that exception
    unchanged, an [UnifiApiError] or [UnifiConnectionError] with message [m]
    can leave it as [UpdateFailed("Error communicating with UniFi API: " + m)],
    and no outcome of the cycle is a snapshot: the coordinator keeps its data
    and marks the update as failed. *)
Theorem top_level_failure_outcomes :
  forall (fuel : nat) (net : http_request -> exchange) (c : client) (site_id : string) (e : exn),
  (get_devices fuel net c site_id = Some (Err e) \/
   get_clients fuel net c site_id = Some (Err e) \/
   get_wans net c site_id = Err e) ->
  (is_unifi_api_error e = false -> In (Unexpected e) (_async_update_data fuel net c site_id)) /\
  (forall m, (e = UnifiApiError m \/ exists cause, e = UnifiConnectionError m cause) ->
     In (UpdateFailed (String.append "Error communicating with UniFi API: " m))
        (_async_update_data fuel net c site_id)) /\
  forall o, In o (_async_update_data fuel net c site_id) ->
    (forall s, o <> CycleOk s) /\ o <> CycleRunning /\
    forall st, data (refresh st o) = data st /\ last_update_success (refresh st o) = false.
Proof.
  intros fuel net c site_id e Hfail.
  assert (Hin : In e (errors_of (get_devices fuel net c site_id) ++ errors_of (get_clients fuel net c site_id)
        ++ errors_of (Some (get_wans net c site_id)))).
  { destruct Hfail as [H|[H|H]]; rewrite ?H; simpl; rewrite ?in_app_iff; simpl; tauto. }
  destruct (update_data_errors fuel net c site_id e Hin) as [Hh Hall].
  split; [|split].
  - intros He. destruct e; try discriminate. exact Hh.
  - intros m [->|[cause ->]]; exact Hh.
  - intros o Ho. destruct (Hall o Ho) as [e' ->].
    destruct (handle_update_error_failure e') as (H1 & H2 & _).
    split; [exact H1|]. split; [exact H2|].
    intros st. destruct e'; split; reflexivity.
Qed.

(** A controller answering 500 to everything. *)
Lemma top_level_failure_outcomes_witness :
  get_devices 5 (net_status 500) demo_client "default"
    = Some (Err (UnifiApiError "API request failed (500): denied")) /\
  In (UpdateFailed "Error communicating with UniFi API: API request failed (500): denied")
     (_async_update_data 5 (net_status 500) demo_client "default").
Proof.
  assert (Hd : get_devices 5 (net_status 500) demo_client "default"
               = Some (Err (UnifiApiError "API request failed (500): denied")))
    by (vm_compute; reflexivity).
  split; [exact Hd|].
  destruct (top_level_failure_outcomes 5 (net_status 500) demo_client "default"
              (UnifiApiError "API request failed (500): denied") (or_introl Hd)) as [_ [H _]].
  apply H. left. reflexivity.
Defined.

(** In the snapshot of a successful cycle, the entry of every device id is
    built from the last record of the device listing carrying that id, and a
    key no record carries is absent. *)
Theorem duplicate_ids_last_record_wins :
  forall (fuel : nat) (net : http_request -> exchange) (c : client) (site_id : string)
         (s : snapshot),
  In (CycleOk s) (_async_update_data fuel net c site_id) ->
  exists devices_list,
    get_devices fuel net c site_id = Some (Ok devices_list) /\
    forall k, dict_lookup (devices s) k
              = option_map (device_entry net c site_id) (last_with_key devices_list k).
Proof.
  intros fuel net c site_id s Hs.
  destruct (update_data_ok fuel net c site_id s Hs) as (dl & cl & wl & Hd & Hc & Hw & Hb).
  destruct (build_snapshot_ok _ _ _ _ _ _ _ Hb) as (w & wls & v & Hdevs & _).
  exists dl. split; [exact Hd|]. intros k.
  rewrite build_devices_collect in Hdevs.
  rewrite (collect_devices_lookup _ dl [] (devices s) Hdevs k).
  destruct (last_with_key dl k); reflexivity.
Qed.

(** Two records with the id [a]: the entry of [a] is built from the
    second. *)
Lemma duplicate_ids_last_record_wins_witness :
  In (CycleOk duplicate_id_snapshot) (_async_update_data 5 (net_page duplicate_id_page) demo_client "default") /\
  (exists devices_list,
    get_devices 5 (net_page duplicate_id_page) demo_client "default" = Some (Ok devices_list) /\
    forall k, dict_lookup (devices duplicate_id_snapshot) k
              = option_map (device_entry (net_page duplicate_id_page) demo_client "default")
                  (last_with_key devices_list k)) /\
  option_map info (dict_lookup (devices duplicate_id_snapshot) (KStr "a"))
    = Some (JObj [("id"%string, JStr "a"); ("name"%string, JStr "second")]).
Proof.
  assert (H : In (CycleOk duplicate_id_snapshot) (_async_update_data 5 (net_page duplicate_id_page) demo_client "default"))
    by (vm_compute; left; reflexivity).
  destruct (duplicate_ids_last_record_wins 5 (net_page duplicate_id_page) demo_client "default" duplicate_id_snapshot H)
    as [dl [Hdl Hlk]].
  split; [exact H|]. split; [exists dl; split; [exact Hdl|exact Hlk]|].
  rewrite Hlk. injection Hdl as <-. vm_compute. reflexivity.
Defined.

Lemma device_key_err_other (dv : json) (e : exn) :
  device_key dv = Err e -> is_unifi_api_error e = false.
Proof.
  unfold device_key, py_getitem. destruct dv; simpl; try (intros H; injection H as <-; reflexivity).
  destruct (assoc "id" kvs) as [v|]; simpl; [|intros H; injection H as <-; reflexivity].
  destruct v; simpl; try discriminate; intros H; injection H as <-; reflexivity.
Qed.

Lemma collect_devices_err (f : json -> result dev_entry) (devs : list json) :
  ~ Forall wf_device devs ->
  forall acc, exists e, collect_devices acc devs (map f devs) = Err e /\ is_unifi_api_error e = false.
Proof.
  induction devs as [|dv ds IH]; intros Hnot acc; [exfalso; apply Hnot; constructor|].
  cbn [collect_devices map].
  destruct (device_key dv) as [kd|e] eqn:Ek.
  - unfold device_key in Ek. apply bind_ok in Ek as [idv [Hid Hk]].
    rewrite Hid. cbn [mbind result_bind]. rewrite Hk. cbn [mbind result_bind].
    apply IH. intros Hall. apply Hnot. constructor; [|exact Hall].
    exists kd. unfold device_key. rewrite Hid. exact Hk.
  - exists e. split; [|exact (device_key_err_other dv e Ek)].
    unfold device_key in Ek. destruct (py_getitem dv "id") as [idv|e'] eqn:Hid;
      cbn [mbind result_bind] in Ek |- *.
    + rewrite Ek. reflexivity.
    + injection Ek as ->. reflexivity.
Qed.

(** If the three fetches succeed but some record of the device listing has
    no usable [id], the cycle fails with one exception that is not an
    [UnifiApiError] (it is not wrapped in [UpdateFailed]). *)
Theorem device_without_id_unexpected :
  forall (fuel : nat) (net : http_request -> exchange) (c : client) (site_id : string)
         (devices_list clients_list : list json) (wans_list : json),
  get_devices fuel net c site_id = Some (Ok devices_list) ->
  get_clients fuel net c site_id = Some (Ok clients_list) ->
  get_wans net c site_id = Ok wans_list ->
  ~ Forall wf_device devices_list ->
  exists e, is_unifi_api_error e = false /\
    _async_update_data fuel net c site_id = [Unexpected e].
Proof.
  intros fuel net c site_id dl cl wl Hd Hc Hw Hbad.
  destruct (collect_devices_err (_fetch_device_data net c site_id) dl Hbad []) as [e [He Ho]].
  exists e. split; [exact Ho|].
  unfold _async_update_data. rewrite Hd, Hc, Hw. simpl gather3. cbn [map].
  unfold build_snapshot. rewrite build_devices_collect, He. cbn [mbind result_bind finish].
  destruct e; try discriminate. reflexivity.
Qed.

(** A controller whose only device has no [id]. *)
Lemma device_without_id_unexpected_witness :
  get_devices 5 (net_page nameless_device_page) demo_client "default"
    = Some (Ok [JObj [("name"%string, JStr "sw")]]) /\
  get_clients 5 (net_page nameless_device_page) demo_client "default"
    = Some (Ok [JObj [("name"%string, JStr "sw")]]) /\
  get_wans (net_page nameless_device_page) demo_client "default"
    = Ok (JArr [JObj [("name"%string, JStr "sw")]]) /\
  ~ Forall wf_device [JObj [("name"%string, JStr "sw")]] /\
  exists e, is_unifi_api_error e = false /\
    _async_update_data 5 (net_page nameless_device_page) demo_client "default" = [Unexpected e].
Proof.
  assert (H1 : get_devices 5 (net_page nameless_device_page) demo_client "default"
               = Some (Ok [JObj [("name"%string, JStr "sw")]])) by (vm_compute; reflexivity).
  assert (H2 : get_clients 5 (net_page nameless_device_page) demo_client "default"
               = Some (Ok [JObj [("name"%string, JStr "sw")]])) by (vm_compute; reflexivity).
  assert (H3 : get_wans (net_page nameless_device_page) demo_client "default"
               = Ok (JArr [JObj [("name"%string, JStr "sw")]])) by (vm_compute; reflexivity).
  assert (H4 : ~ Forall wf_device [JObj [("name"%string, JStr "sw")]]).
  { intros H. inversion H as [|? ? [k Hk] _]. vm_compute in Hk. discriminate. }
  split; [exact H1|]. split; [exact H2|]. split; [exact H3|]. split; [exact H4|].
  exact (device_without_id_unexpected 5 (net_page nameless_device_page) demo_client "default"
           _ _ _ H1 H2 H3 H4).
Defined.

Lemma client_type_wf (cl : json) :
  wf_client cl -> exists t, client_type cl = Ok t.
Proof.
  intros [kvs [-> Ht]]. unfold client_type, py_get. cbn [mbind result_bind].
  destruct (assoc "type" kvs) as [v|]; [destruct v; try contradiction|]; eauto.
Qed.

Lemma client_type_not_wf (cl : json) :
  ~ wf_client cl -> client_type cl = Err (OtherError "AttributeError").
Proof.
  intros Hn. unfold client_type, py_get. destruct cl as [| | | | |kvs]; try reflexivity.
  cbn [mbind result_bind].
  destruct (assoc "type" kvs) as [v|] eqn:E.
  - destruct v; try reflexivity. exfalso. apply Hn. exists kvs. rewrite E. auto.
  - exfalso. apply Hn. exists kvs. rewrite E. auto.
Qed.

Lemma client_type_ok_wf (cl : json) (t : string) :
  client_type cl = Ok t -> wf_client cl.
Proof.
  unfold client_type, py_get. destruct cl as [| | | | |kvs]; try discriminate.
  cbn [mbind result_bind]. intros H. exists kvs. split; [reflexivity|].
  destruct (assoc "type" kvs) as [v|]; [destruct v; try discriminate|]; exact I.
Qed.

Lemma count_clients_err (l : list json) :
  ~ Forall wf_client l -> forall acc, count_clients l acc = Err (OtherError "AttributeError").
Proof.
  induction l as [|cl rest IH]; intros Hn acc; [exfalso; apply Hn; constructor|].
  cbn [count_clients].
  destruct (client_type cl) as [t|e] eqn:Et.
  - cbn [mbind result_bind]. destruct acc as [[w wl] v]. apply IH.
    intros Hall. apply Hn. constructor; [|exact Hall].
    exact (client_type_ok_wf cl t Et).
  - cbn [mbind result_bind].
    assert (~ wf_client cl) as Hw.
    { intros H. destruct (client_type_wf cl H) as [t Ht]. congruence. }
    rewrite (client_type_not_wf cl Hw) in Et. congruence.
Qed.

(** If the three fetches succeed, every device has an [id], and some client
    record is not an object or has a [type] that is not a string, the cycle
    fails with [AttributeError], unwrapped. *)
Theorem client_bad_type_unexpected :
  forall (fuel : nat) (net : http_request -> exchange) (c : client) (site_id : string)
         (devices_list clients_list : list json) (wans_list : json),
  get_devices fuel net c site_id = Some (Ok devices_list) ->
  get_clients fuel net c site_id = Some (Ok clients_list) ->
  get_wans net c site_id = Ok wans_list ->
  Forall wf_device devices_list ->
  ~ Forall wf_client clients_list ->
  _async_update_data fuel net c site_id = [Unexpected (OtherError "AttributeError")].
Proof.
  intros fuel net c site_id dl cl wl Hd Hc Hw Hdev Hbad.
  unfold _async_update_data. rewrite Hd, Hc, Hw. simpl gather3. cbn [map].
  unfold build_snapshot. rewrite build_devices_collect.
  destruct (collect_devices_ok (_fetch_device_data net c site_id) dl Hdev []) as [d' Hd'].
  rewrite Hd'. cbn [mbind result_bind]. rewrite (count_clients_err cl Hbad). reflexivity.
Qed.

(** A controller listing one record with an [id] and a [null] [type], as
    device and as client. *)
Lemma client_bad_type_unexpected_witness :
  get_devices 5 (net_page untyped_record_page) demo_client "default"
    = Some (Ok (pg_data untyped_record_page)) /\
  get_clients 5 (net_page untyped_record_page) demo_client "default"
    = Some (Ok (pg_data untyped_record_page)) /\
  get_wans (net_page untyped_record_page) demo_client "default"
    = Ok (JArr (pg_data untyped_record_page)) /\
  Forall wf_device (pg_data untyped_record_page) /\
  ~ Forall wf_client (pg_data untyped_record_page) /\
  _async_update_data 5 (net_page untyped_record_page) demo_client "default"
    = [Unexpected (OtherError "AttributeError")].
Proof.
  assert (H1 : get_devices 5 (net_page untyped_record_page) demo_client "default"
               = Some (Ok (pg_data untyped_record_page))) by (vm_compute; reflexivity).
  assert (H2 : get_clients 5 (net_page untyped_record_page) demo_client "default"
               = Some (Ok (pg_data untyped_record_page))) by (vm_compute; reflexivity).
  assert (H3 : get_wans (net_page untyped_record_page) demo_client "default"
               = Ok (JArr (pg_data untyped_record_page))) by (vm_compute; reflexivity).
  assert (H4 : Forall wf_device (pg_data untyped_record_page))
    by (repeat constructor; eexists; reflexivity).
  assert (H5 : ~ Forall wf_client (pg_data untyped_record_page)).
  { intros H. inversion H as [|? ? [kvs [Heq Ht]] _]. injection Heq as <-. exact Ht. }
  split; [exact H1|]. split; [exact H2|]. split; [exact H3|]. split; [exact H4|].
  split; [exact H5|].
  exact (client_bad_type_unexpected 5 (net_page untyped_record_page) demo_client "default"
           _ _ _ H1 H2 H3 H4 H5).
Defined.

Lemma dict_set_length_new {V : Type} (d : list (pykey * V)) (k : pykey) (v : V) :
  dict_lookup d k = None -> length (dict_set d k v) = S (length d).
Proof.
  induction d as [|[k1 v1] rest IH]; [reflexivity|].
  cbn [dict_lookup dict_set]. destruct (key_eqb k1 k); [discriminate|].
  intros H. cbn [length]. now rewrite IH.
Qed.

Lemma collect_devices_length (f : json -> result dev_entry) (devs : list json) :
  forall acc d', collect_devices acc devs (map f devs) = Ok d' ->
  NoDup (map device_norm devs) ->
  (forall dv kd, In dv devs -> device_key dv = Ok kd -> dict_lookup acc kd = None) ->
  length d' = length acc + length devs.
Proof.
  induction devs as [|dv ds IH]; intros acc d' H Hnd Hfresh.
  - injection H as <-. simpl. lia.
  - cbn [collect_devices map] in H.
    apply bind_ok in H as [idv [Hid H]]. apply bind_ok in H as [kd [Hkd H]].
    assert (Hdk : device_key dv = Ok kd).
    { unfold device_key. rewrite Hid. exact Hkd. }
    cbn [map] in Hnd. apply NoDup_cons in Hnd as [Hnotin Hnd].
    rewrite (IH _ _ H Hnd).
    + rewrite dict_set_length_new; [simpl; lia|]. apply (Hfresh dv); [now left|exact Hdk].
    + intros dv' kd' Hin Hk'. rewrite dict_lookup_set.
      destruct (key_eqb kd kd') eqn:E.
      * exfalso. apply Hnotin. apply list_elem_of_In, in_map_iff. exists dv'.
        split; [|exact Hin]. unfold device_norm. rewrite Hk', Hdk.
        apply key_eqb_norm in E. now rewrite E.
      * apply (Hfresh dv'); [now right|exact Hk'].
Qed.

(** When the device listing of a successful cycle has pairwise distinct ids,
    the [device_count] site sensor reports the number of records of that
    listing. *)
Theorem device_count_sensor :
  forall (fuel : nat) (net : http_request -> exchange) (c : client) (site_id : string)
         (s : snapshot) (devices_list : list json),
  In (CycleOk s) (_async_update_data fuel net c site_id) ->
  get_devices fuel net c site_id = Some (Ok devices_list) ->
  NoDup (map device_norm devices_list) ->
  forall sd, In sd SITE_SENSORS -> sd_key sd = "device_count" ->
    site_value_fn sd s = JNum (Z.of_nat (length devices_list)).
Proof.
  intros fuel net c site_id s dl Hs Hd Hnd sd Hsd Hkey.
  destruct (update_data_ok fuel net c site_id s Hs) as (dl' & cl & wl & Hd' & Hc & Hw & Hb).
  rewrite Hd in Hd'. injection Hd' as <-.
  destruct (build_snapshot_ok _ _ _ _ _ _ _ Hb) as (w & wls & v & Hdevs & _).
  rewrite build_devices_collect in Hdevs.
  pose proof (collect_devices_length _ dl [] (devices s) Hdevs Hnd
                (fun _ _ _ _ => eq_refl)) as Hlen.
  simpl in Hsd. repeat destruct Hsd as [<-|Hsd]; try discriminate; [|contradiction].
  cbn. rewrite Hlen. reflexivity.
Qed.

(** The cycle on [net_site] lists two devices. *)
Lemma device_count_sensor_witness :
  In (CycleOk demo_snapshot) (_async_update_data 5 net_site demo_client "default") /\
  get_devices 5 net_site demo_client "default" = Some (Ok demo_devices_list) /\
  NoDup (map device_norm demo_devices_list) /\
  In device_count_description SITE_SENSORS /\
  site_value_fn device_count_description demo_snapshot = JNum 2.
Proof.
  assert (H1 : In (CycleOk demo_snapshot) (_async_update_data 5 net_site demo_client "default"))
    by (vm_compute; left; reflexivity).
  assert (H2 : get_devices 5 net_site demo_client "default" = Some (Ok demo_devices_list))
    by (vm_compute; reflexivity).
  assert (H3 : NoDup (map device_norm demo_devices_list)).
  { vm_compute. constructor; [|constructor; [|constructor]];
      rewrite ?list_elem_of_In; simpl; intuition discriminate. }
  assert (H4 : In device_count_description SITE_SENSORS) by (simpl; tauto).
  split; [exact H1|]. split; [exact H2|]. split; [exact H3|]. split; [exact H4|].
  exact (device_count_sensor 5 net_site demo_client "default" demo_snapshot demo_devices_list
           H1 H2 H3 device_count_description H4 eq_refl).
Defined.

(* ------------------------------------------------------------------ *)
(** ** Sensors: values and availability *)
(** The value of every device sensor depends only on the [info] or
    [statistics] part of the device entry the sensor names as its source. *)
Theorem device_sensor_reads_source :
  forall (dt : Type) (DT : DateTime dt) (desc : device_description dt) (d d' : json),
  In desc DEVICE_SENSORS ->
  py_get d (dd_source desc) (JObj []) = py_get d' (dd_source desc) (JObj []) ->
  value_fn desc d = value_fn desc d'.
Proof.
  intros dt DT desc d d' Hin Heq.
  simpl in Hin. repeat destruct Hin as [<-|Hin]; try contradiction;
    cbn [dd_source value_fn] in Heq |- *; unfold get_in, uplink_rate; rewrite Heq; reflexivity.
Qed.

(** The [state] sensor ignores the statistics. *)
Lemma device_sensor_reads_source_witness :
  In state_description (@DEVICE_SENSORS bool demo_datetime) /\
  py_get (JObj [("info"%string, JObj [("state"%string, JStr "ONLINE")])])
    (dd_source state_description) (JObj [])
  = py_get (JObj [("info"%string, JObj [("state"%string, JStr "ONLINE")]);
                  ("statistics"%string, JNull)]) (dd_source state_description) (JObj []) /\
  value_fn state_description (JObj [("info"%string, JObj [("state"%string, JStr "ONLINE")])])
  = value_fn state_description (JObj [("info"%string, JObj [("state"%string, JStr "ONLINE")]);
                                      ("statistics"%string, JNull)]).
Proof.
  assert (H1 : In state_description (@DEVICE_SENSORS bool demo_datetime)) by (left; reflexivity).
  assert (H2 : py_get (JObj [("info"%string, JObj [("state"%string, JStr "ONLINE")])])
                 (dd_source state_description) (JObj [])
               = py_get (JObj [("info"%string, JObj [("state"%string, JStr "ONLINE")]);
                               ("statistics"%string, JNull)]) (dd_source state_description) (JObj []))
    by reflexivity.
  split; [exact H1|]. split; [exact H2|].
  exact (device_sensor_reads_source bool demo_datetime state_description _ _ H1 H2).
Defined.

(** A device whose detail fetch failed (a placeholder entry) reports [None]
    on every statistics sensor, and a device absent from the data reports
    [None] on every sensor. *)
Theorem failed_device_sensor_values :
  forall (dt : Type) (DT : DateTime dt) (s : snapshot) (device_id : pykey),
  (forall dv, dict_lookup (devices s) device_id = Some (placeholder dv) ->
   forall desc, In desc DEVICE_SENSORS -> dd_source desc = "statistics" ->
     device_native_value s device_id desc = Ok (SVJson JNull)) /\
  (dict_lookup (devices s) device_id = None ->
   forall desc, In desc DEVICE_SENSORS -> device_native_value s device_id desc = Ok (SVJson JNull)).
Proof.
  intros dt DT s device_id. unfold device_native_value, device_data. split.
  - intros dv Hl desc Hin Hsrc. rewrite Hl.
    simpl in Hin. repeat destruct Hin as [<-|Hin]; try contradiction;
      cbn in Hsrc |- *; try discriminate; reflexivity.
  - intros Hl desc Hin. rewrite Hl.
    simpl in Hin. repeat destruct Hin as [<-|Hin]; try contradiction; reflexivity.
Qed.


(** [_parse_timestamp] gives [None] on a falsy value and
    [AttributeError] on a truthy value that is not a string; on a non-empty
    string it parses the text with ["Z"] replaced by ["+00:00"], gives
    [None] when parsing fails, and puts a naive result in UTC; so, when the
    UTC replacement is timezone-aware, every datetime it returns is. *)
Theorem parse_timestamp_behaviour :
  forall (dt : Type) (DT : DateTime dt),
  (forall d, tzinfo_is_none (replace_tzinfo_utc d) = false) ->
  forall v : json,
  (py_truthy v = false -> _parse_timestamp v = Ok (SVJson JNull)) /\
  (forall d, _parse_timestamp v = Ok (SVTime d) -> tzinfo_is_none d = false) /\
  (py_truthy v = true -> (forall s, v <> JStr s) ->
     _parse_timestamp v = Err (OtherError "AttributeError")) /\
  (forall s, v = JStr s -> s <> EmptyString ->
     _parse_timestamp v = match fromisoformat (replace_Z s) with
                          | None => Ok (SVJson JNull)
                          | Some d => Ok (SVTime (if tzinfo_is_none d then replace_tzinfo_utc d else d))
                          end).
Proof.
  intros dt DT Hutc v. unfold _parse_timestamp. split; [|split; [|split]].
  - intros H. now rewrite H.
  - intros d. destruct (py_truthy v); [|discriminate]. cbn [negb].
    destruct v; try discriminate.
    destruct (fromisoformat (replace_Z s)) as [d0|]; [|discriminate].
    intros H. injection H as <-.
    destruct (tzinfo_is_none d0) eqn:E; [apply Hutc|exact E].
  - intros Ht Hs. rewrite Ht. cbn [negb].
    destruct v; try reflexivity. exfalso. eapply Hs. reflexivity.
  - intros s -> Hne. cbn [py_truthy].
    destruct (String.eqb s EmptyString) eqn:E; [apply String.eqb_eq in E; contradiction|].
    reflexivity.
Qed.

(** A naive timestamp is put in UTC. *)
Lemma parse_timestamp_behaviour_witness :
  (forall d, @tzinfo_is_none bool demo_datetime (@replace_tzinfo_utc bool demo_datetime d) = false) /\
  @_parse_timestamp bool demo_datetime (JStr "2024-05-01T12:00:00Z") = Ok (SVTime true).
Proof.
  assert (Hz : forall d, @tzinfo_is_none bool demo_datetime (@replace_tzinfo_utc bool demo_datetime d) = false)
    by (intros d; reflexivity).
  split; [exact Hz|].
  destruct (parse_timestamp_behaviour bool demo_datetime Hz (JStr "2024-05-01T12:00:00Z"))
    as (_ & _ & _ & H).
  rewrite (H _ eq_refl); [reflexivity|discriminate].
Defined.

(* ------------------------------------------------------------------ *)
(** ** Sensors: entity creation *)
Lemma mem_key_in (k : pykey) (t : list pykey) :
  mem_key k t = true <-> In (key_norm k) (map key_norm t).
Proof.
  unfold mem_key. rewrite existsb_exists, in_map_iff. split.
  - intros [x [Hx Hk]]. apply key_eqb_norm in Hk. exists x. auto.
  - intros [x [Hk Hx]]. exists x. split; [exact Hx|]. now apply key_eqb_norm.
Qed.

Lemma NoDup_map_filter {A B : Type} (g : A -> B) (p : A -> bool) (l : list A) :
  NoDup (map g l) -> NoDup (map g (List.filter p l)).
Proof.
  induction l as [|x l IH]; [intros _; constructor|].
  cbn [map List.filter]. rewrite NoDup_cons. intros [Hx Hl].
  destruct (p x); [|now apply IH]. cbn [map]. rewrite NoDup_cons. split; [|now apply IH].
  intros Hin. apply Hx. apply list_elem_of_In in Hin. apply list_elem_of_In.
  apply in_map_iff in Hin as [y [Hy Hin]]. apply filter_In in Hin as [Hin _].
  apply in_map_iff. eauto.
Qed.

Lemma py_set_nodup (l : list pykey) : NoDup (map key_norm (py_set l)).
Proof.
  induction l as [|k l IH]; [constructor|].
  cbn [py_set map]. rewrite NoDup_cons. split; [|now apply NoDup_map_filter].
  intros Hin. apply list_elem_of_In, in_map_iff in Hin as [y [Hy Hin]].
  apply filter_In in Hin as [_ Hne]. unfold key_eqb in Hne.
  rewrite Hy in Hne. rewrite bool_decide_eq_true_2 in Hne; [discriminate|reflexivity].
Qed.

Lemma py_set_cover (l : list pykey) (k : pykey) :
  In k l -> exists k', In k' (py_set l) /\ key_norm k' = key_norm k.
Proof.
  induction l as [|k0 l IH]; [contradiction|]. intros [->|Hin].
  - exists k. split; [now left|reflexivity].
  - destruct (key_eqb k0 k) eqn:E.
    + exists k0. split; [now left|]. now apply key_eqb_norm.
    + destruct (IH Hin) as [k' [Hk' Hn]].
      destruct (key_eqb k0 k') eqn:E'.
      * exfalso. apply key_eqb_norm in E'. rewrite Hn in E'.
        apply key_eqb_norm in E'. congruence.
      * exists k'. split; [|exact Hn]. right. apply filter_In. rewrite E'. auto.
Qed.

Section Entities.
Context {dt : Type} {DT : DateTime dt}.

Lemma device_sensor_keys_nodup : NoDup (map dd_key (DEVICE_SENSORS (dt := dt))).
Proof. cbn. repeat constructor; rewrite ?list_elem_of_In; simpl; intuition discriminate. Qed.

Lemma batch_of_in (ids : list pykey) (x : pykey * device_description dt) :
  In x (batch_of ids) <-> In (fst x) ids /\ In (snd x) DEVICE_SENSORS.
Proof.
  unfold batch_of. rewrite in_flat_map. destruct x as [k d]. split.
  - intros [k' [Hk Hin]]. apply in_map_iff in Hin as [d' [Heq Hd]]. injection Heq as -> ->. auto.
  - intros [Hk Hd]. exists k. split; [exact Hk|]. apply in_map_iff. eauto.
Qed.

Lemma batch_of_nodup (ids : list pykey) :
  NoDup (map key_norm ids) -> NoDup (map ent_norm (batch_of ids)).
Proof.
  induction ids as [|k ids IH]; [constructor|].
  cbn [map]. rewrite NoDup_cons. intros [Hk Hids].
  unfold batch_of. cbn [flat_map]. fold (batch_of ids). rewrite map_app, NoDup_app.
  split; [|split; [|now apply IH]].
  - rewrite map_map. unfold ent_norm. cbn [fst snd].
    pose proof device_sensor_keys_nodup as Hd. revert Hd.
    generalize (DEVICE_SENSORS (dt := dt)). intros l. induction l as [|d l IHl]; [constructor|].
    cbn [map]. rewrite !NoDup_cons. intros [Hd Hl]. split; [|now apply IHl].
    intros Hin. apply Hd. apply list_elem_of_In in Hin. apply list_elem_of_In.
    apply in_map_iff in Hin as [d' [Heq Hin]]. injection Heq as Heq.
    apply in_map_iff. eauto.
  - intros x Hx1 Hx2. apply list_elem_of_In, in_map_iff in Hx1 as [y [<- Hy]].
    apply list_elem_of_In, in_map_iff in Hx2 as [z [Hyz Hz]].
    apply in_map_iff in Hy as [d [<- _]].
    apply batch_of_in in Hz as [Hz _]. apply Hk. apply list_elem_of_In, in_map_iff.
    exists (fst z). split; [|exact Hz]. unfold ent_norm in Hyz. injection Hyz as Hyz _. exact Hyz.
Qed.

Lemma add_new_devices_batch (devs : list (pykey * dev_entry)) (tracked : list pykey) :
  let new_ids := List.filter (fun k => negb (mem_key k tracked)) (py_set (map fst devs)) in
  _async_add_new_devices devs tracked
  = (tracked ++ new_ids,
     match batch_of new_ids with [] => None | _ => Some (batch_of new_ids) end).
Proof. reflexivity. Qed.

Lemma add_devices_run_spec (snaps : list (list (pykey * dev_entry))) :
  forall t, let '(_, bs) := add_devices_run snaps t in
  Forall (fun b => b <> []) bs /\
  NoDup (map ent_norm (concat bs)) /\
  (forall x, In x (map ent_norm (concat bs)) -> ~ In (fst x) (map key_norm t)) /\
  (forall devs k desc, In devs snaps -> In k (map fst devs) -> In desc DEVICE_SENSORS ->
     In (key_norm k) (map key_norm t) \/
     exists k', key_norm k' = key_norm k /\ In (k', desc) (concat bs)).
Proof.
  induction snaps as [|devs rest IH]; intros t.
  - cbn. repeat split; [constructor|constructor|contradiction|contradiction].
  - cbn [add_devices_run]. rewrite add_new_devices_batch.
    set (new_ids := List.filter (fun k => negb (mem_key k t)) (py_set (map fst devs))).
    specialize (IH (t ++ new_ids)).
    destruct (add_devices_run rest (t ++ new_ids)) as [t2 bs] eqn:Erun.
    destruct IH as (Hne & Hnd & Hfresh & Hcov).
    assert (Hconcat : concat (match match batch_of new_ids with
                                    | [] => None | _ => Some (batch_of new_ids) end with
                              | Some b => b :: bs | None => bs end)
                      = batch_of new_ids ++ concat bs)
      by (destruct (batch_of new_ids); reflexivity).
    assert (Hnew : forall k, In k new_ids -> ~ In (key_norm k) (map key_norm t)).
    { intros k Hk Hin. apply filter_In in Hk as [_ Hm]. apply mem_key_in in Hin.
      rewrite Hin in Hm. discriminate. }
    assert (Hb : forall x, In x (map ent_norm (batch_of new_ids)) ->
                 In (fst x) (map key_norm new_ids)).
    { intros x Hx. apply in_map_iff in Hx as [y [<- Hy]]. apply batch_of_in in Hy as [Hy _].
      apply in_map_iff. exists (fst y). auto. }
    split; [|split; [|split]].
    + destruct (batch_of new_ids) eqn:Eb; [exact Hne|]. constructor; [discriminate|exact Hne].
    + rewrite Hconcat, map_app, NoDup_app. split; [|split; [|exact Hnd]].
      * apply batch_of_nodup. apply NoDup_map_filter. apply py_set_nodup.
      * intros x Hx1 Hx2. apply list_elem_of_In in Hx1, Hx2.
        apply (Hfresh x Hx2). rewrite map_app. apply in_or_app. right. now apply Hb.
    + intros x Hx. rewrite Hconcat, map_app in Hx. apply in_app_or in Hx as [Hx|Hx].
      * apply Hb in Hx. apply in_map_iff in Hx as [k [Hk Hin]]. rewrite <- Hk. now apply Hnew.
      * intros Hin. apply (Hfresh x Hx). rewrite map_app. apply in_or_app. now left.
    + intros devs' k desc Hdevs Hk Hdesc. rewrite Hconcat.
      assert (Hstep : forall k0, In (key_norm k0) (map key_norm (t ++ new_ids)) ->
                In (key_norm k0) (map key_norm t) \/
                exists k', key_norm k' = key_norm k0 /\ In (k', desc) (batch_of new_ids ++ concat bs)).
      { intros k0 Hin. rewrite map_app in Hin. apply in_app_or in Hin as [Hin|Hin]; [now left|].
        right. apply in_map_iff in Hin as [k' [Hk' Hin]]. exists k'. split; [exact Hk'|].
        apply in_or_app. left. apply batch_of_in. auto. }
      destruct Hdevs as [<-|Hdevs].
      * destruct (py_set_cover _ _ Hk) as [k0 [Hk0 Hn]].
        destruct (mem_key k0 t) eqn:Em.
        -- left. apply mem_key_in in Em. now rewrite <- Hn.
        -- right. exists k0. split; [exact Hn|]. apply in_or_app. left. apply batch_of_in.
           split; [|exact Hdesc]. apply filter_In. split; [exact Hk0|]. cbn [fst]. now rewrite Em.
      * destruct (Hcov devs' k desc Hdevs Hk Hdesc) as [Hin|[k' [Hk' Hin]]].
        -- now apply Hstep.
        -- right. exists k'. split; [exact Hk'|]. apply in_or_app. now right.
Qed.

End Entities.

(** Over any sequence of coordinator updates starting with no tracked
    devices, every batch [_async_add_new_devices] passes to
    [async_add_entities] is non-empty, no (device id, sensor key) pair is
    created twice, and every device of every update gets one entity per
    description of [DEVICE_SENSORS]. *)
Theorem sensor_entities_created_once :
  forall (dt : Type) (DT : DateTime dt) (snaps : list (list (pykey * dev_entry))),
  let '(_, batches) := add_devices_run snaps [] in
  Forall (fun b => b <> []) batches /\
  NoDup (map (fun x : pykey * device_description dt => (key_norm (fst x), dd_key (snd x)))
             (concat batches)) /\
  forall devs k desc, In devs snaps -> In k (map fst devs) -> In desc DEVICE_SENSORS ->
    exists k', key_norm k' = key_norm k /\ In (k', desc) (concat batches).
Proof.
  intros dt DT snaps. pose proof (add_devices_run_spec snaps []) as H.
  destruct (add_devices_run snaps []) as [t bs]. destruct H as (Hne & Hnd & _ & Hcov).
  split; [exact Hne|]. split; [exact Hnd|].
  intros devs k desc Hd Hk Hdesc. destruct (Hcov devs k desc Hd Hk Hdesc) as [[]|H]. exact H.
Qed.

(* ------------------------------------------------------------------ *)
(** ** Sensors: unique ids *)
Lemma list_ascii_of_string_append (a b : string) :
  list_ascii_of_string (String.append a b) = list_ascii_of_string a ++ list_ascii_of_string b.
Proof. induction a as [|ch a IH]; [reflexivity|]. simpl. now rewrite IH. Qed.

Lemma list_ascii_of_string_inj (a b : string) :
  list_ascii_of_string a = list_ascii_of_string b -> a = b.
Proof.
  intros H. rewrite <- (string_of_list_ascii_of_string a), <- (string_of_list_ascii_of_string b).
  now rewrite H.
Qed.

Lemma sep_suffix_app (a l : list ascii) :
  sep_suffix a (l ++ "_"%char :: a) = true.
Proof.
  unfold sep_suffix. rewrite length_app. cbn [length].
  apply andb_true_intro. split; [apply Nat.leb_le; lia|].
  apply bool_decide_eq_true. replace (length l + S (length a) - S (length a)) with (length l) by lia.
  rewrite skipn_app, skipn_all, Nat.sub_diag. reflexivity.
Qed.

Lemma sep_suffix_keys :
  forallb (fun k1 => forallb (fun k2 =>
             negb (sep_suffix (list_ascii_of_string k1) (list_ascii_of_string k2)))
             (DEVICE_KEYS ++ SITE_KEYS)) DEVICE_KEYS = true.
Proof. vm_compute. reflexivity. Qed.

Lemma device_keys_of {dt : Type} {DT : DateTime dt} (x : device_description dt) :
  In x DEVICE_SENSORS -> In (dd_key x) DEVICE_KEYS.
Proof. intros Hin. simpl in Hin. repeat destruct Hin as [<-|Hin]; try contradiction; simpl; tauto. Qed.

Lemma site_keys_of (y : site_description) :
  In y SITE_SENSORS -> In (sd_key y) SITE_KEYS.
Proof. intros Hin. simpl in Hin. repeat destruct Hin as [<-|Hin]; try contradiction; simpl; tauto. Qed.

Lemma key_not_sep_suffix (k1 k2 : string) (l : list ascii) :
  In k1 DEVICE_KEYS -> In k2 (DEVICE_KEYS ++ SITE_KEYS) ->
  list_ascii_of_string k2 <> l ++ "_"%char :: list_ascii_of_string k1.
Proof.
  intros H1 H2 Heq. pose proof sep_suffix_keys as Hkeys.
  rewrite forallb_forall in Hkeys. specialize (Hkeys k1 H1).
  rewrite forallb_forall in Hkeys. specialize (Hkeys k2 H2).
  rewrite Heq, sep_suffix_app in Hkeys. discriminate.
Qed.

(** For string device ids, two device sensors of one entry have the same
    unique id only when they have the same device and the same key; a device
    sensor never has the unique id of a site sensor; and two site sensors of
    one entry with the same unique id have the same key. *)
Theorem sensor_unique_ids_distinct :
  forall (dt : Type) (DT : DateTime dt) (entry_id d1 d2 : string)
         (x1 x2 : device_description dt) (y1 y2 : site_description),
  In x1 DEVICE_SENSORS -> In x2 DEVICE_SENSORS -> In y1 SITE_SENSORS -> In y2 SITE_SENSORS ->
  (device_unique_id entry_id (KStr d1) (dd_key x1)
     = device_unique_id entry_id (KStr d2) (dd_key x2) ->
   d1 = d2 /\ dd_key x1 = dd_key x2) /\
  device_unique_id entry_id (KStr d1) (dd_key x1) <> site_unique_id entry_id (sd_key y1) /\
  (site_unique_id entry_id (sd_key y1) = site_unique_id entry_id (sd_key y2) ->
   sd_key y1 = sd_key y2).
Proof.
  intros dt DT entry_id d1 d2 x1 x2 y1 y2 Hx1 Hx2 Hy1 Hy2.
  pose proof (key_not_sep_suffix) as Hno.
  pose proof (device_keys_of x1 Hx1) as Hk1. pose proof (device_keys_of x2 Hx2) as Hk2.
  pose proof (site_keys_of y1 Hy1) as Hs1.
  unfold device_unique_id, site_unique_id. split; [|split].
  - intros H. apply (f_equal list_ascii_of_string) in H.
    rewrite !list_ascii_of_string_append in H. apply app_inv_head in H.
    cbn in H. injection H as H.
    apply app_eq_app in H as [l [[Hd Hk]|[Hd Hk]]].
    + destruct l as [|ch l].
      * rewrite app_nil_r in Hd. injection Hk as Hk.
        split; apply list_ascii_of_string_inj; [assumption|symmetry; assumption].
      * exfalso. injection Hk as <- Hk. apply (Hno (dd_key x1) (dd_key x2) l);
          [exact Hk1|apply in_or_app; left; exact Hk2|exact Hk].
    + destruct l as [|ch l].
      * rewrite app_nil_r in Hd. injection Hk as Hk.
        split; apply list_ascii_of_string_inj; [symmetry; assumption|assumption].
      * exfalso. injection Hk as <- Hk. apply (Hno (dd_key x2) (dd_key x1) l);
          [exact Hk2|apply in_or_app; left; exact Hk1|exact Hk].
  - intros H. apply (f_equal list_ascii_of_string) in H.
    rewrite !list_ascii_of_string_append in H. apply app_inv_head in H.
    cbn in H. injection H as H.
    apply (Hno (dd_key x1) (sd_key y1) (list_ascii_of_string d1));
      [exact Hk1|apply in_or_app; right; exact Hs1|].
    rewrite <- H. reflexivity.
  - intros H. apply (f_equal list_ascii_of_string) in H.
    rewrite !list_ascii_of_string_append in H. apply app_inv_head in H.
    cbn in H. injection H as H. now apply list_ascii_of_string_inj.
Qed.

(** The [state] sensor of device [a] and the [device_count] sensor. *)
Lemma sensor_unique_ids_distinct_witness :
  In state_description (@DEVICE_SENSORS bool demo_datetime) /\
  In device_count_description SITE_SENSORS /\
  device_unique_id "entry" (KStr "a") "state" <> site_unique_id "entry" "device_count".
Proof.
  assert (H1 : In state_description (@DEVICE_SENSORS bool demo_datetime)) by (left; reflexivity).
  assert (H2 : In device_count_description SITE_SENSORS) by (simpl; tauto).
  split; [exact H1|]. split; [exact H2|].
  destruct (sensor_unique_ids_distinct bool demo_datetime "entry" "a" "a"
              state_description state_description device_count_description device_count_description
              H1 H1 H2 H2) as [_ [H _]].
  exact H.
Defined.

(* ------------------------------------------------------------------ *)
(** ** Configuration flow *)

Lemma handle_exchange_auth (c : client) (ex : exchange) (m : string) :
  handle_exchange c ex = Err (UnifiAuthenticationError m) ->
  exists status text body, ex = ExResponse status text body /\ (status = 401 \/ status = 403)%Z.
Proof.
  destruct ex as [err|status text body]; cbn [handle_exchange]; [discriminate|].
  intros H. exists status, text, body. split; [reflexivity|].
  destruct (Z.eqb_spec status 401) as [->|H1]; [now left|].
  destruct (Z.eqb_spec status 403) as [->|H2]; [now right|].
  cbn [orb] in H. destruct (negb (Z.eqb status 200)); [discriminate|].
  destruct body; discriminate.
Qed.

Lemma page_step_err_other (data_key : string) (results : list json) (resp : json) (e : exn) :
  page_step data_key results resp = Err e -> exists s, e = OtherError s.
Proof.
  unfold page_step, py_get. destruct resp; try (intros H; injection H as <-; eexists; reflexivity).
  cbn. destruct (assoc data_key kvs) as [pd|]; cbn.
  - destruct pd; cbn; try (intros H; injection H as <-; eexists; reflexivity);
    (destruct (assoc "totalCount" kvs) as [t|]; cbn;
     [destruct t; cbn; try discriminate; intros H; injection H as <-; eexists; reflexivity
     |discriminate]).
  - destruct (assoc "totalCount" kvs) as [t|]; cbn;
     [destruct t; cbn; try discriminate; intros H; injection H as <-; eexists; reflexivity
     |discriminate].
Qed.

Lemma paginate_loop_auth fuel net c path data_key offset results log m :
  paginate_loop fuel net c path data_key offset results
    = Some (log, Err (UnifiAuthenticationError m)) ->
  exists rq status text body, In rq log /\ net rq = ExResponse status text body /\
    (status = 401 \/ status = 403)%Z.
Proof.
  revert offset results log.
  induction fuel as [|fuel IH]; intros offset results log H; [discriminate|].
  cbn [paginate_loop] in H. unfold _request in H.
  destruct (handle_exchange c (net (build_request c "GET" path (page_params offset)))) as [resp|e] eqn:Eh.
  - destruct (page_step data_key results resp) as [[[|] r']|e] eqn:Ep.
    + discriminate.
    + destruct (paginate_loop fuel net c path data_key (offset + limit) r') as [[log' r]|] eqn:El;
        [|discriminate].
      injection H as <- ->.
      destruct (IH _ _ _ El) as (rq & st & tx & bd & Hin & Hn & Hs).
      exists rq, st, tx, bd. split; [now right|]. auto.
    + injection H as <- ->. destruct (page_step_err_other _ _ _ _ Ep) as [s Hs]. discriminate.
  - injection H as <- ->.
    destruct (handle_exchange_auth _ _ _ Eh) as (st & tx & bd & Hn & Hs).
    exists (build_request c "GET" path (page_params offset)), st, tx, bd.
    split; [now left|]. auto.
Qed.

(** [async_step_user] shows the form with [invalid_auth] only when the
    controller answered 401 or 403: to the info request, or to one of the
    requests of the site listing. *)
Theorem config_flow_invalid_auth_cause :
  forall fuel net configured f u f',
  async_step_user fuel net configured f (Some u) = (f', ShowUserForm [("base", "invalid_auth")]%string) ->
  exists rq status text body,
    (rq = build_request (user_client u) "GET" "/v1/info" None \/
     exists log r, _paginate fuel net (user_client u) "/v1/sites" "data" = Some (log, r) /\ In rq log) /\
    net rq = ExResponse status text body /\ (status = 401 \/ status = 403)%Z.
Proof.
  intros fuel net configured f u f' H.
  unfold async_step_user in H. cbn [cf_host cf_api_key cf_verify_ssl] in H.
  fold (user_client u) in H.
  assert (Hcode : forall e, flow_error_code e = "invalid_auth"%string -> exists m, e = UnifiAuthenticationError m).
  { intros [m|m|m cause|s] Hc; cbn in Hc; try discriminate. now exists m. }
  destruct (get_info net (user_client u)) as [info|e] eqn:Ei.
  - destruct (get_sites fuel net (user_client u)) as [[sites|e]|] eqn:Es.
    + destruct sites as [|site [|s2 rest]].
      * injection H as _ Hm. discriminate.
      * destruct (idv ← py_getitem site "id"; name ← site_name_of site; Ok (idv, name)) as [[idv name]|e'];
          [unfold _create_entry in H; destruct (existsb _ _)|]; discriminate.
      * unfold async_step_site in H. destruct (site_options_of _ _); discriminate.
    + injection H as _ Hm. destruct (Hcode e Hm) as [m ->].
      unfold get_sites, paginated in Es.
      destruct (_paginate fuel net (user_client u) "/v1/sites" "data") as [[log r]|] eqn:Ep; [|discriminate].
      injection Es as ->.
      destruct (paginate_loop_auth _ _ _ _ _ _ _ _ _ Ep) as (rq & st & tx & bd & Hin & Hn & Hs).
      exists rq, st, tx, bd. split; [right; exists log, (Err (UnifiAuthenticationError m)); auto|auto].
    + discriminate.
  - injection H as _ Hm. destruct (Hcode e Hm) as [m ->].
    unfold get_info, _request in Ei.
    destruct (handle_exchange_auth _ _ _ Ei) as (st & tx & bd & Hn & Hs).
    exists (build_request (user_client u) "GET" "/v1/info" None), st, tx, bd. auto.
Qed.

(** A controller that accepts the info request and refuses the site
    listing with 403. *)
Lemma config_flow_invalid_auth_cause_witness :
  async_step_user 1 net_sites_forbidden [] config_flow_init (Some demo_user_input)
    = ({| cf_host := "192.168.1.1"; cf_api_key := "secret"; cf_verify_ssl := false;
          cf_sites := [] |}, ShowUserForm [("base", "invalid_auth")]%string) /\
  exists rq status text body,
    (rq = build_request (user_client demo_user_input) "GET" "/v1/info" None \/
     exists log r, _paginate 1 net_sites_forbidden (user_client demo_user_input) "/v1/sites" "data"
                   = Some (log, r) /\ In rq log) /\
    net_sites_forbidden rq = ExResponse status text body /\ (status = 401 \/ status = 403)%Z.
Proof.
  assert (H : async_step_user 1 net_sites_forbidden [] config_flow_init (Some demo_user_input)
              = ({| cf_host := "192.168.1.1"; cf_api_key := "secret"; cf_verify_ssl := false;
                    cf_sites := [] |}, ShowUserForm [("base", "invalid_auth")]%string))
    by (vm_compute; reflexivity).
  split; [exact H|].
  exact (config_flow_invalid_auth_cause 1 net_sites_forbidden [] config_flow_init demo_user_input _ H).
Defined.

(** [async_step_user] creates an entry only after a successful info
    request and a site listing with exactly one site: the unique id is the
    host as typed, ["_"] and that site's [id]; it is not among the
    configured ids; and the entry stores the typed host, polls with the
    client the flow validated and keeps the site's [id]. *)
Theorem config_flow_entry_inversion :
  forall fuel net configured f u uid title d,
  snd (async_step_user fuel net configured f (Some u)) = CreateEntry uid title d ->
  exists info site idv,
    get_info net (user_client u) = Ok info /\
    get_sites fuel net (user_client u) = Some (Ok [site]) /\
    py_getitem site "id" = Ok idv /\
    uid = String.append (ui_host u) (String.append "_" (fstr idv)) /\
    ~ In uid configured /\
    ed_host d = ui_host u /\ entry_client d = user_client u /\ ed_site_id d = idv.
Proof.
  intros fuel net configured f u uid title d H.
  unfold async_step_user in H. cbn [cf_host cf_api_key cf_verify_ssl] in H.
  fold (user_client u) in H.
  destruct (get_info net (user_client u)) as [info|e] eqn:Ei; [|discriminate].
  destruct (get_sites fuel net (user_client u)) as [[sites|e]|] eqn:Es; try discriminate.
  destruct sites as [|site [|s2 rest]]; cbn [snd] in H.
  - discriminate.
  - destruct (py_getitem site "id") as [idv|e] eqn:Eid; [|discriminate].
    cbn in H. destruct (site_name_of site) as [name|e]; [|discriminate].
    cbn in H. unfold _create_entry in H. cbn [cf_host cf_api_key cf_verify_ssl] in H.
    destruct (existsb _ configured) eqn:Ex; [discriminate|].
    injection H as <- <- <-.
    exists info, site, idv. do 3 (split; [first [reflexivity|assumption]|]).
    split; [reflexivity|]. split; [|split; [reflexivity|split; reflexivity]].
    intros Hin. assert (Hb : existsb (String.eqb (String.append (ui_host u) (String.append "_" (fstr idv)))) configured = true).
    { apply existsb_exists. eexists; split; [exact Hin|apply String.eqb_refl]. }
    congruence.
  - unfold async_step_site in H. destruct (site_options_of _ _); discriminate.
Qed.

(** The single site of [single_site_page]. *)
Lemma config_flow_entry_inversion_witness :
  snd (async_step_user 1 (net_page single_site_page) [] config_flow_init (Some demo_user_input))
    = CreateEntry "192.168.1.1_default" "UniFi Home (192.168.1.1)"
        {| ed_host := "192.168.1.1"; ed_api_key := "secret"; ed_verify_ssl := false;
           ed_site_id := JStr "default"; ed_site_name := JStr "Home" |} /\
  exists info site idv,
    get_info (net_page single_site_page) (user_client demo_user_input) = Ok info /\
    get_sites 1 (net_page single_site_page) (user_client demo_user_input) = Some (Ok [site]) /\
    py_getitem site "id" = Ok idv /\
    "192.168.1.1_default"%string
      = String.append (ui_host demo_user_input) (String.append "_" (fstr idv)) /\
    ~ In "192.168.1.1_default"%string [] /\
    "192.168.1.1"%string = ui_host demo_user_input /\
    entry_client {| ed_host := "192.168.1.1"; ed_api_key := "secret"; ed_verify_ssl := false;
                    ed_site_id := JStr "default"; ed_site_name := JStr "Home" |}
      = user_client demo_user_input /\
    JStr "default" = idv.
Proof.
  assert (H : snd (async_step_user 1 (net_page single_site_page) [] config_flow_init
                     (Some demo_user_input))
              = CreateEntry "192.168.1.1_default" "UniFi Home (192.168.1.1)"
                  {| ed_host := "192.168.1.1"; ed_api_key := "secret"; ed_verify_ssl := false;
                     ed_site_id := JStr "default"; ed_site_name := JStr "Home" |})
    by (vm_compute; reflexivity).
  split; [exact H|].
  exact (config_flow_entry_inversion 1 (net_page single_site_page) [] config_flow_init
           demo_user_input _ _ _ H).
Defined.




Lemma str_length_append (a b : string) :
  String.length (String.append a b) = String.length a + String.length b.
Proof. induction a as [|ch a IH]; simpl; [reflexivity|now rewrite IH]. Qed.

(** If the flow for host [h] creates an entry, a flow for [h + "/"] with the
    same key, started with that entry configured, creates a second entry with
    another unique id for the same controller and the same site. *)
Theorem config_flow_trailing_slash_duplicate :
  forall fuel net f h key v uid title d,
  snd (async_step_user fuel net [] f
         (Some {| ui_host := h; ui_api_key := key; ui_verify_ssl := v |}))
    = CreateEntry uid title d ->
  exists uid' title' d',
    snd (async_step_user fuel net [uid] f
           (Some {| ui_host := String.append h "/"; ui_api_key := key; ui_verify_ssl := v |}))
      = CreateEntry uid' title' d' /\
    uid' <> uid /\ entry_client d' = entry_client d /\ entry_site_id d' = entry_site_id d.
Proof.
  intros fuel net f h key v uid title d H.
  unfold async_step_user in *. cbn [cf_host cf_api_key cf_verify_ssl ui_host ui_api_key ui_verify_ssl] in *.
  assert (Hcl : forall b, mk_client (String.append h "/") key b = mk_client h key b).
  { intros b. unfold mk_client. now rewrite rstrip_slash_trailing. }
  rewrite Hcl.
  destruct (get_info net _) as [i|e]; [|discriminate].
  destruct (get_sites fuel net _) as [[sites|e]|]; try discriminate.
  destruct sites as [|site [|s2 rest]]; try discriminate.
  - cbn [snd] in *.
    destruct (idv ← py_getitem site "id"; name ← site_name_of site; Ok (idv, name))
      as [[idv name]|e]; [|discriminate].
    unfold _create_entry in *. cbn [cf_host cf_api_key cf_verify_ssl existsb] in *.
    injection H as <- <- <-.
    eexists _, _, _. split.
    + match goal with |- (if ?b then _ else _) = _ => replace b with false end; [reflexivity|].
      symmetry. rewrite orb_false_r. apply String.eqb_neq. intros Heq.
      apply (f_equal String.length) in Heq. rewrite !str_length_append in Heq. simpl in Heq. lia.
    + split; [|split].
      * intros Heq. apply (f_equal String.length) in Heq. rewrite !str_length_append in Heq. simpl in Heq. lia.
      * unfold entry_client. cbn [ed_host ed_api_key ed_verify_ssl]. apply Hcl.
      * reflexivity.
  - cbn [snd] in H. unfold async_step_site in H.
    destruct (site_options_of _ _); discriminate.
Qed.

(** The single site, configured once as [192.168.1.1] and once more as
    [192.168.1.1/]. *)
Lemma config_flow_trailing_slash_duplicate_witness :
  snd (async_step_user 1 (net_page single_site_page) [] config_flow_init (Some demo_user_input))
    = CreateEntry "192.168.1.1_default" "UniFi Home (192.168.1.1)"
        {| ed_host := "192.168.1.1"; ed_api_key := "secret"; ed_verify_ssl := false;
           ed_site_id := JStr "default"; ed_site_name := JStr "Home" |} /\
  exists uid' title' d',
    snd (async_step_user 1 (net_page single_site_page) ["192.168.1.1_default"%string]
           config_flow_init
           (Some {| ui_host := "192.168.1.1/"; ui_api_key := "secret"; ui_verify_ssl := None |}))
      = CreateEntry uid' title' d' /\
    uid' <> "192.168.1.1_default"%string /\
    entry_client d' = entry_client {| ed_host := "192.168.1.1"; ed_api_key := "secret";
                                      ed_verify_ssl := false; ed_site_id := JStr "default";
                                      ed_site_name := JStr "Home" |} /\
    entry_site_id d' = "default"%string.
Proof.
  assert (H : snd (async_step_user 1 (net_page single_site_page) [] config_flow_init
                     (Some demo_user_input))
              = CreateEntry "192.168.1.1_default" "UniFi Home (192.168.1.1)"
                  {| ed_host := "192.168.1.1"; ed_api_key := "secret"; ed_verify_ssl := false;
                     ed_site_id := JStr "default"; ed_site_name := JStr "Home" |})
    by (vm_compute; reflexivity).
  split; [exact H|].
  exact (config_flow_trailing_slash_duplicate 1 (net_page single_site_page) config_flow_init
           "192.168.1.1" "secret" None _ _ _ H).
Defined.

Lemma find_site_name_skip (pre post : list json) (sid : string) :
  Forall (fun s => exists kvs idv, s = JObj kvs /\ assoc "id" kvs = Some idv /\ idv <> JStr sid) pre ->
  find_site_name (pre ++ post) sid = find_site_name post sid.
Proof.
  induction 1 as [|s pre [kvs [idv [-> [Hid Hne]]]] _ IH]; [reflexivity|].
  cbn [app find_site_name py_getitem]. rewrite Hid. cbn.
  destruct idv as [| | |s'| |]; try exact IH.
  destruct (String.eqb_spec s' sid) as [->|_]; [congruence|exact IH].
Qed.

(** In [async_step_site], the chosen id names the first site whose [id] is
    that string, and the entry takes that site's [name] (else the id); a
    chosen id that no site has still creates an entry, named by the id. *)
Theorem config_flow_site_choice :
  forall configured f sid pre post,
  cf_sites f = pre ++ post ->
  Forall (fun s => exists kvs idv, s = JObj kvs /\ assoc "id" kvs = Some idv /\ idv <> JStr sid) pre ->
  (post = [] ->
     async_step_site configured f (Some sid) = _create_entry configured f (JStr sid) (JStr sid)) /\
  (forall kvs rest, post = JObj kvs :: rest -> assoc "id" kvs = Some (JStr sid) ->
     async_step_site configured f (Some sid)
       = _create_entry configured f (JStr sid)
           (match assoc "name" kvs with Some n => n | None => JStr sid end)).
Proof.
  intros configured f sid pre post Hs Hpre. unfold async_step_site.
  rewrite Hs, (find_site_name_skip pre post sid Hpre). split.
  - intros ->. reflexivity.
  - intros kvs rest -> Hid. cbn [find_site_name py_getitem]. rewrite Hid. cbn.
    rewrite String.eqb_refl. cbn. rewrite Hid. reflexivity.
Qed.

(** Two sites, [default] and [lab]; [lab] has no name. *)
Lemma config_flow_site_choice_witness :
  cf_sites {| cf_host := "192.168.1.1"; cf_api_key := "secret"; cf_verify_ssl := false;
              cf_sites := [JObj [("id"%string, JStr "default"); ("name"%string, JStr "Home")];
                           JObj [("id"%string, JStr "lab")]] |}
    = [JObj [("id"%string, JStr "default"); ("name"%string, JStr "Home")]]
      ++ [JObj [("id"%string, JStr "lab")]] /\
  Forall (fun s => exists kvs idv, s = JObj kvs /\ assoc "id" kvs = Some idv /\ idv <> JStr "lab")
    [JObj [("id"%string, JStr "default"); ("name"%string, JStr "Home")]] /\
  async_step_site []
    {| cf_host := "192.168.1.1"; cf_api_key := "secret"; cf_verify_ssl := false;
       cf_sites := [JObj [("id"%string, JStr "default"); ("name"%string, JStr "Home")];
                    JObj [("id"%string, JStr "lab")]] |} (Some "lab"%string)
  = _create_entry []
      {| cf_host := "192.168.1.1"; cf_api_key := "secret"; cf_verify_ssl := false;
         cf_sites := [JObj [("id"%string, JStr "default"); ("name"%string, JStr "Home")];
                      JObj [("id"%string, JStr "lab")]] |} (JStr "lab") (JStr "lab").
Proof.
  assert (Hpre : Forall (fun s => exists kvs idv, s = JObj kvs /\ assoc "id" kvs = Some idv /\
                                                  idv <> JStr "lab")
                   [JObj [("id"%string, JStr "default"); ("name"%string, JStr "Home")]]).
  { constructor; [|constructor]. eexists _, _. split; [reflexivity|].
    split; [reflexivity|discriminate]. }
  split; [reflexivity|]. split; [exact Hpre|].
  destruct (config_flow_site_choice []
              {| cf_host := "192.168.1.1"; cf_api_key := "secret"; cf_verify_ssl := false;
                 cf_sites := [JObj [("id"%string, JStr "default"); ("name"%string, JStr "Home")];
                              JObj [("id"%string, JStr "lab")]] |} "lab"
              [JObj [("id"%string, JStr "default"); ("name"%string, JStr "Home")]]
              [JObj [("id"%string, JStr "lab")]] eq_refl Hpre) as [_ H].
  exact (H _ [] eq_refl eq_refl).
Defined.
